(** * python-anvil: the API facade of [python_anvil/api.py]

    A shallow embedding of the facade: the response-unwrapping helper
    [_get_return], the REST operations [fill_pdf] and [generate_pdf], the
    GraphQL queries [get_cast], [get_casts] and [get_welds], and the
    mutations [create_etch_packet] and [forge_submit].

    Python values that travel through the facade (JSON documents, keyword
    arguments) are an inductive type [pyval] whose dictionaries are finite
    maps; exceptions are values of [exn] and a computation that may raise
    has type [result A]; the calls the facade makes on its HTTP
    collaborators are recorded, in order, in an explicit trace. *)

From Stdlib Require Import ZArith Ascii String.
From stdpp Require Import gmap strings list fin_maps pretty.

Set Warnings "-register-all".

(** ** Python values and exceptions *)

Module Python.

(** JSON-shaped Python values: [None], [bool], [int], [str], [list] and
    [dict] with [str] keys. *)
Inductive pyval : Type :=
  | PNone
  | PBool (b : bool)
  | PInt (z : Z)
  | PStr (s : string)
  | PList (l : list pyval)
  | PDict (d : gmap string pyval).

Abbreviation pydict := (gmap string pyval).

(** The exception classes the facade raises or lets through.
    [ValidationError] is pydantic's, a subclass of [ValueError];
    [OtherError] stands for anything else a collaborator raises (its class
    name and message). *)
Inductive exn : Type :=
  | TypeError (msg : string)
  | ValueError (msg : string)
  | KeyError (key : string)
  | ValidationError (msg : string)
  | OtherError (cls msg : string).

(** [isinstance(e, ValueError)] *)
Definition is_value_error (e : exn) : bool :=
  match e with
  | ValueError _ | ValidationError _ => true
  | _ => false
  end.

(** [isinstance(e, TypeError)] *)
Definition is_type_error (e : exn) : bool :=
  match e with
  | TypeError _ => true
  | _ => false
  end.

(** A computation that returns a value or raises. *)
Inductive result (A : Type) : Type :=
  | Ok (a : A)
  | Raise (e : exn).
Arguments Ok {A} a.
Arguments Raise {A} e.

#[global] Instance result_ret : MRet result := λ A a, Ok a.
#[global] Instance result_bind : MBind result := λ A B f r,
  match r with
  | Ok a => f a
  | Raise e => Raise e
  end.
#[global] Instance result_throw : MThrow exn result := λ A e, Raise e.

(** [bool(v)]: Python truthiness. *)
Definition py_truthy (v : pyval) : bool :=
  match v with
  | PNone => false
  | PBool b => b
  | PInt z => negb (z =? 0)%Z
  | PStr s => negb (String.eqb s EmptyString)
  | PList l => negb (bool_decide (l = []))
  | PDict d => negb (bool_decide (d = ∅))
  end.

(** [sub in s] on strings. *)
Fixpoint is_substring (sub s : string) : bool :=
  String.prefix sub s ||
  match s with
  | EmptyString => false
  | String _ s' => is_substring sub s'
  end.

(** The character [c] occurs in [s]. *)
Fixpoint has_char (c : ascii) (s : string) : bool :=
  match s with
  | EmptyString => false
  | String x s' => Ascii.eqb c x || has_char c s'
  end.

Definition is_str (k : string) (v : pyval) : bool :=
  match v with
  | PStr s => String.eqb s k
  | _ => false
  end.

(** [k in v] for a [str] key [k]: key membership on a dict, element
    membership on a list, substring test on a string; the other values are
    not containers. *)
Definition py_contains (k : string) (v : pyval) : result bool :=
  match v with
  | PDict d => Ok (bool_decide (is_Some (d !! k)))
  | PList l => Ok (existsb (is_str k) l)
  | PStr s => Ok (is_substring k s)
  | _ => Raise (TypeError "argument is not iterable")
  end.

(** [v[k]] for a [str] key [k]. *)
Definition py_getitem (v : pyval) (k : string) : result pyval :=
  match v with
  | PDict d =>
      match d !! k with
      | Some x => Ok x
      | None => Raise (KeyError k)
      end
  | PList _ | PStr _ => Raise (TypeError "indices must be integers")
  | _ => Raise (TypeError "object is not subscriptable")
  end.

Fixpoint chars (s : string) : list pyval :=
  match s with
  | EmptyString => []
  | String c s' => PStr (String c EmptyString) :: chars s'
  end.

(** A Python dict yields its keys in the order of their insertion, which
    a finite map does not record: [key_order d] is that order, a listing
    of the keys of [d]. *)
Class KeyOrder : Type := {
  key_order : pydict → list string;
  key_order_keys : ∀ d, key_order d ≡ₚ (map_to_list d).*1;
}.

(** The items a [for] loop draws from [v]; a dict yields its keys. *)
Definition py_iter `{KeyOrder} (v : pyval) : result (list pyval) :=
  match v with
  | PList l => Ok l
  | PStr s => Ok (chars s)
  | PDict d => Ok (PStr <$> key_order d)
  | _ => Raise (TypeError "object is not iterable")
  end.

(** [str(z)] for an [int]. *)
Definition py_str_int (z : Z) : string := pretty z.

(** [sep.join(l)] *)
Definition join (sep : string) (l : list string) : string := String.concat sep l.

End Python.
Export Python.

(** ** The response-unwrapping helper *)

(** [_get_return(res, get_data)]; [and] evaluates its second operand only
    when the first holds, and the dict display evaluates [get_data(_res)]
    before [res["headers"]]. *)
Definition _get_return (res : pyval) (get_data : pyval → result pyval) : result pyval :=
  has_response ← py_contains "response" res;
  has_headers ← (if has_response : bool then py_contains "headers" res else Ok false);
  if has_headers : bool then
    _res ← py_getitem res "response";
    extracted ← get_data _res;
    headers ← py_getitem res "headers";
    Ok (PDict {[ "response" := extracted; "headers" := headers ]})
  else get_data res.

(** ** The collaborators of the facade *)

Module Resources.

(** Modelled from the spec: the payload types of
    [api_resources/payload.py], which is not among the sources.  A payload
    is "a typed record representing a request body", "constructed from a
    mapping, a raw JSON string, or passed through if already typed", and
    "validation fails with a data error when required fields are absent".
    [required] lists the required field names, [validate] builds the
    instance from a mapping that has them (it may still reject a field's
    value), and [to_dict] is [.dict(by_alias=True, exclude_none=True)]. *)
Record PayloadType : Type := {
  instance :> Type;
  required : list string;
  validate : pydict → result instance;
  to_dict : instance → pydict;
}.

Definition has_required (P : PayloadType) (d : pydict) : bool :=
  forallb (λ f, bool_decide (is_Some (d !! f))) (required P).

(** Modelled from the spec: the constructor call of a payload type on
    the keyword arguments of a mapping [d]; a mapping that lacks a required field is refused with the data
    error of the validation library. *)
Definition model_init (P : PayloadType) (d : pydict) : result P :=
  if has_required P d then validate P d
  else Raise (ValidationError "field required").

(** Modelled from the spec: [P.parse_raw(s, content_type="application/json")],
    the construction "from a raw JSON string": the text is decoded by the
    JSON reader [json_loads] and the mapping it denotes is given to the
    constructor. *)
Definition parse_raw (json_loads : string → result pyval)
    (P : PayloadType) (s : string) : result P :=
  match json_loads s with
  | Ok (PDict d) => model_init P d
  | Ok _ => Raise (ValidationError "value is not a valid dict")
  | Raise _ => Raise (ValidationError "Invalid JSON")
  end.

(** Modelled from the spec: the mutation types of
    [api_resources/mutations.py], not among the sources: "a typed wrapper
    pairing a payload with GraphQL mutation-string generation logic".  The
    four operations the facade calls are taken as they come:
    [M.create_from_dict(d)], [M(payload=p)], [m.create_payload()] and
    [m.get_mutation()]. *)
Record MutationType (P : PayloadType) : Type := {
  mutation :> Type;
  create_from_dict : pydict → result mutation;
  of_payload : P → result mutation;
  create_payload : mutation → result P;
  get_mutation : mutation → string;
}.
Arguments mutation {P} _.
Arguments create_from_dict {P} _ _.
Arguments of_payload {P} _ _.
Arguments create_payload {P} _ _.
Arguments get_mutation {P} _ _.

(** An argument of dynamic type: a JSON-shaped value, an instance of one of
    the classes [I] the operation knows, or an object of any other class
    (only its truthiness matters). *)
Inductive argument (I : Type) : Type :=
  | Value (v : pyval)
  | Instance (i : I)
  | Object (truthy : bool).
Arguments Value {I} v.
Arguments Instance {I} i.
Arguments Object {I} truthy.

(** [bool(a)]; instances of the payload and mutation classes are plain
    objects, hence truthy. *)
Definition truthy {I : Type} (a : argument I) : bool :=
  match a with
  | Value v => py_truthy v
  | Instance _ => true
  | Object b => b
  end.

(** The calls the facade makes on the request classes of
    [api_resources/requests.py]:
    [RestRequest.post(url, data, **kwargs)],
    [GraphqlRequest.post(query, variables=variables, **kwargs)] and
    [GraphqlRequest.post_multipart(files=files, **kwargs)]. *)
Inductive request (Files : Type) : Type :=
  | RestPost (url : string) (data : pydict) (kwargs : pydict)
  | GraphqlPost (query : string) (variables : pyval) (kwargs : pydict)
  | GraphqlPostMultipart (files : Files) (kwargs : pydict).
Arguments RestPost {Files} url data kwargs.
Arguments GraphqlPost {Files} query variables kwargs.
Arguments GraphqlPostMultipart {Files} files kwargs.

(** A facade operation: from the calls made so far to the calls made after
    it, with its outcome. *)
Record io (Files A : Type) : Type := IO {
  run : list (request Files) → list (request Files) * result A
}.
Arguments IO {Files A} run.
Arguments run {Files A} _ _.

#[global] Instance io_ret {Files} : MRet (io Files) := λ A a, IO (λ tr, (tr, Ok a)).
#[global] Instance io_bind {Files} : MBind (io Files) := λ A B f m,
  IO (λ tr,
    match run m tr with
    | (tr', Ok a) => run (f a) tr'
    | (tr', Raise e) => (tr', Raise e)
    end).
#[global] Instance io_throw {Files} : MThrow exn (io Files) := λ A e, IO (λ tr, (tr, Raise e)).

(** A pure step inside an operation. *)
Definition lift {Files A} (r : result A) : io Files A := IO (λ tr, (tr, r)).

(** Python binds the keyword arguments [**kwargs] of a call to the
    parameters of the callee by name: a key that names a parameter already
    given is a [TypeError]. *)
Definition collides (names : list string) (kwargs : pydict) : bool :=
  existsb (λ n, bool_decide (is_Some (kwargs !! n))) names.

End Resources.
Export Resources.

(** ** A concrete set of collaborators

    A small payload type with one required field, mutation types that
    wrap a mapping, a JSON reader that knows two texts and an HTTP client
    with canned answers: the instances at which the theorems below are
    exercised. *)

Module Demo.

Definition Files : Type := pydict.

(** The dicts of the answers below list their keys in the order of the
    finite map. *)
#[global] Instance map_order : KeyOrder := {|
  key_order := λ d, (map_to_list d).*1;
  key_order_keys := λ d, reflexivity _;
|}.

Definition payload_type : PayloadType := {|
  instance := pydict;
  required := ["data"];
  validate := λ d, Ok d;
  to_dict := λ d, d;
|}.

Definition mutation_type : MutationType payload_type :=
  Build_MutationType payload_type pydict
    (λ d, Ok d) (λ p : pydict, Ok p) (λ m : pydict, Ok m)
    (λ _, "mutation { demo }").

Definition get_multipart_payload (m : mutation_type) : result Files := Ok m.

Definition data_1 : pydict := {[ "data" := PInt 1 ]}.
Definition title_only : pydict := {[ "title" := PStr "t" ]}.

(** The JSON texts of [data_1] and [title_only]. *)
Definition data_1_json : string :=
  String.concat (String (ascii_of_nat 34) EmptyString) ["{"; "data"; ": 1}"].
Definition title_only_json : string :=
  String.concat (String (ascii_of_nat 34) EmptyString) ["{"; "title"; ": "; "t"; "}"].

Definition json_loads (s : string) : result pyval :=
  if String.eqb s data_1_json then Ok (PDict data_1)
  else if String.eqb s title_only_json then Ok (PDict title_only)
  else Raise (ValueError "JSONDecodeError").

Definition cast_1 : pyval := PDict {[ "eid" := PStr "c1" ]}.
Definition cast_2 : pyval := PDict {[ "eid" := PStr "c2" ]}.
Definition cast_3 : pyval := PDict {[ "eid" := PStr "c3" ]}.
Definition weld_1 : pyval := PDict {[ "eid" := PStr "w1" ]}.

Definition org_1 : pydict := {[ "casts" := PList [cast_1; cast_2]; "welds" := PList [] ]}.
Definition org_2 : pydict := {[ "casts" := PList [cast_3]; "welds" := PList [weld_1] ]}.

Definition headers : pyval := PDict {[ "content-type" := PStr "application/json" ]}.

(** The body of a GraphQL answer. *)
Definition answer_user : pydict :=
  {[ "organizations" := PList (PDict <$> [org_1; org_2]) ]}.
Definition answer_data : pydict :=
  {[ "cast" := cast_1; "currentUser" := PDict answer_user ]}.
Definition graphql_answer : pydict := {[ "data" := PDict answer_data ]}.
Definition graphql_envelope : pydict :=
  {[ "response" := PDict graphql_answer; "headers" := headers ]}.

(** An HTTP client: GraphQL posts are answered with [graphql_answer],
    inside the envelope with the headers when the caller asks for them;
    the other calls answer [None]. *)
Definition transport (tr : list (request Files)) (req : request Files) : result pyval :=
  match req with
  | GraphqlPost _ _ kwargs =>
      match kwargs !! "include_headers" with
      | Some (PBool true) => Ok (PDict graphql_envelope)
      | _ => Ok (PDict graphql_answer)
      end
  | _ => Ok PNone
  end.

End Demo.

(** ** Collaborators that fail

    A payload type whose construction reads a key of the mapping and
    raises [KeyError] when it is absent, an HTTP client whose answers carry
    [errors] and no data, and the constructor of the signing-URL
    mutation. *)

Module Probe.

Definition keyed_type : PayloadType := {|
  instance := pydict;
  required := [];
  validate := λ d, match d !! "data" with
                   | Some _ => Ok d
                   | None => Raise (KeyError "data")
                   end;
  to_dict := λ d, d;
|}.

Definition errors_answer : pydict := {[ "errors" := PList [PStr "Not found"] ]}.

Definition errors_transport (tr : list (request Demo.Files))
    (req : request Demo.Files) : result pyval :=
  Ok (PDict errors_answer).

Definition signing_url_init (signer_eid client_user_id : string) :
    result Demo.mutation_type :=
  Ok ({[ "signerEid" := PStr signer_eid;
         "clientUserId" := PStr client_user_id ]} : pydict).

(** A payload type that requires [data] and accepts only a mapping or a
    list as its value. *)
Definition strict_type : PayloadType := {|
  instance := pydict;
  required := ["data"];
  validate := λ d, match d !! "data" with
                   | Some (PDict _) | Some (PList _) => Ok d
                   | _ => Raise (ValidationError "value is not a valid dict")
                   end;
  to_dict := λ d, d;
|}.

(** A payload type with no required field, which accepts any mapping. *)
Definition open_type : PayloadType := {|
  instance := pydict;
  required := [];
  validate := λ d, Ok d;
  to_dict := λ d, d;
|}.

(** An answer whose second organization has no [casts]. *)
Definition org_without_casts : pydict := {[ "welds" := PList [] ]}.
Definition partial_user : pydict :=
  {[ "organizations" :=
       PList ((PDict <$> [Demo.org_1]) ++ PDict org_without_casts :: []) ]}.
Definition partial_data : pydict := {[ "currentUser" := PDict partial_user ]}.
Definition partial_answer : pydict := {[ "data" := PDict partial_data ]}.

End Probe.

(** ** The facade: [class Anvil] *)

Definition nl : string := String (ascii_of_nat 10) EmptyString.
Definition dquote : string := String (ascii_of_nat 34) EmptyString.

(** The f-string that puts [s] between double quotes. *)
Definition quoted (s : string) : string := dquote +:+ s +:+ dquote.

(** [n] spaces of indentation inside a query text. *)
Fixpoint indent (n : nat) : string :=
  match n with
  | O => EmptyString
  | S n' => String " "%char (indent n')
  end.

(** Version number to use for latest versions (usually drafts). *)
Definition VERSION_LATEST : Z := -1.
(** Version number to use for the latest published version. *)
Definition VERSION_LATEST_PUBLISHED : Z := -2.

(** The default of [fields] in [get_cast] and [get_casts]. *)
Definition default_fields : list string := ["eid"; "title"; "fieldInfo"].

(** [if not fields: fields = ["eid", "title", "fieldInfo"]] *)
Definition fields_or_default (fields : option (list string)) : list string :=
  match fields with
  | Some (f :: fs) => f :: fs
  | _ => default_fields
  end.

(** The f-string of [get_cast]. *)
Definition cast_query (arg_str fields : string) : string :=
  "{" +:+ nl +:+
  indent 14 +:+ "cast " +:+ arg_str +:+ " {" +:+ nl +:+
  indent 16 +:+ fields +:+ nl +:+
  indent 14 +:+ "}" +:+ nl +:+
  indent 12 +:+ "}".

(** [":".join(arg)] for each pair of [cast_args]. *)
Definition joined_args (cast_args : list (string * string)) : list string :=
  (λ arg, join ":" [arg.1; arg.2]) <$> cast_args.

(** The argument list and the query text [get_cast] builds.  A list the
    caller passes as [cast_args] is extended in place by the two [append]s;
    the embedding keeps the extended list local. *)
Definition get_cast_args (eid : string) (version_number : option Z)
    (cast_args : option (list (string * string))) : list (string * string) :=
  let cast_args := default [] cast_args in
  let cast_args := cast_args ++ [("eid", quoted eid)] in
  match version_number with
  | Some v =>
      if py_truthy (PInt v)
      then cast_args ++ [("versionNumber", py_str_int v)]
      else cast_args
  | None => cast_args
  end.

Definition get_cast_arg_str (cast_args : list (string * string)) : string :=
  if bool_decide (length cast_args ≠ 0)
  then "(" +:+ join "," (joined_args cast_args) +:+ ")"
  else EmptyString.

Definition get_cast_query (eid : string) (fields : option (list string))
    (version_number : option Z) (cast_args : option (list (string * string))) : string :=
  cast_query (get_cast_arg_str (get_cast_args eid version_number cast_args))
             (join " " (fields_or_default fields)).

(** [get_data] of [get_cast]: [r["data"]["cast"]] *)
Definition get_data_cast (r : pyval) : result pyval :=
  data ← py_getitem r "data";
  py_getitem data "cast".

(** The f-string of [get_casts]. *)
Definition casts_query (cast_args fields : string) : string :=
  "{" +:+ nl +:+
  indent 14 +:+ "currentUser {" +:+ nl +:+
  indent 16 +:+ "organizations {" +:+ nl +:+
  indent 18 +:+ "casts " +:+ cast_args +:+ " {" +:+ nl +:+
  indent 20 +:+ fields +:+ nl +:+
  indent 18 +:+ "}" +:+ nl +:+
  indent 16 +:+ "}" +:+ nl +:+
  indent 14 +:+ "}" +:+ nl +:+
  indent 12 +:+ "}".

Definition isTemplate_filter : string := "(isTemplate: true)".

Definition get_casts_query (fields : option (list string)) (show_all : bool) : string :=
  let cast_args := if show_all then EmptyString else isTemplate_filter in
  casts_query cast_args (join " " (fields_or_default fields)).

(** The comprehension [[item for org in orgs for item in org[key]]]. *)
Fixpoint flatten_orgs `{KeyOrder} (key : string) (orgs : list pyval) :
    result (list pyval) :=
  match orgs with
  | [] => Ok []
  | org :: orgs' =>
      inner ← py_getitem org key;
      items ← py_iter inner;
      rest ← flatten_orgs key orgs';
      Ok (items ++ rest)
  end.

(** [get_data] of [get_casts] and of [get_welds], with [key] the field
    read from each organization. *)
Definition get_data_orgs `{KeyOrder} (key : string) (r : pyval) : result pyval :=
  data ← py_getitem r "data";
  user ← py_getitem data "currentUser";
  orgs ← py_getitem user "organizations";
  orgs ← py_iter orgs;
  items ← flatten_orgs key orgs;
  Ok (PList items).

(** The query text of [get_welds]. *)
Definition welds_query : string :=
  "{" +:+ nl +:+
  indent 14 +:+ "currentUser {" +:+ nl +:+
  indent 16 +:+ "organizations {" +:+ nl +:+
  indent 18 +:+ "welds {" +:+ nl +:+
  indent 20 +:+ "eid" +:+ nl +:+
  indent 20 +:+ "slug" +:+ nl +:+
  indent 20 +:+ "title" +:+ nl +:+
  indent 20 +:+ "forges {" +:+ nl +:+
  indent 22 +:+ "eid" +:+ nl +:+
  indent 22 +:+ "name" +:+ nl +:+
  indent 20 +:+ "}" +:+ nl +:+
  indent 18 +:+ "}" +:+ nl +:+
  indent 16 +:+ "}" +:+ nl +:+
  indent 14 +:+ "}" +:+ nl +:+
  indent 12 +:+ "}".

(** The messages of the errors the facade raises itself. *)
Definition msg_json_or_dict : string :=
  "`payload` must be a valid JSON string or a dict".
Definition msg_validation_failed : string :=
  "`payload` validation failed. Please make sure all required fields are set. ".
Definition msg_payload_or_json : string :=
  "One of the arguments `payload` or `json` must exist".
Definition msg_etch_payload : string :=
  "`payload` must be a valid CreateEtchPacket instance or dict".
Definition msg_json_or_payload : string :=
  "One of arguments `json` or `payload` are required".
Definition msg_forge_payload : string :=
  "`payload` must be a valid ForgeSubmitPayload instance or dict".
Definition msg_multiple_values : string :=
  "got multiple values for argument".

(** [except KeyError as e: raise ValueError(...) from e] around the
    normalization of [fill_pdf] (the handler also logs the exception). *)
Definition except_KeyError {A} (r : result A) : result A :=
  match r with
  | Raise (KeyError _) => Raise (ValueError msg_validation_failed)
  | _ => r
  end.

(** [json] is [None] or a string; [bool(json)]. *)
Definition json_truthy (json : option string) : bool :=
  match json with
  | Some s => py_truthy (PStr s)
  | None => false
  end.

Section Anvil.

Context {Files : Type}.
(** The order in which the dicts of an answer list their keys. *)
Context `{dict_order : KeyOrder}.
(** The JSON reader of the payload types. *)
Context (json_loads : string → result pyval).
(** The HTTP client behind the request classes: what a call answers, given
    the calls made before it. *)
Context (transport : list (request Files) → request Files → result pyval).
Context (FillPDFPayload GeneratePDFPayload : PayloadType).
Context (CreateEtchPacketPayload ForgeSubmitPayload : PayloadType).
Context (CreateEtchPacket : MutationType CreateEtchPacketPayload).
Context (ForgeSubmit : MutationType ForgeSubmitPayload).
(** [multipart_helpers.get_multipart_payload] *)
Context (get_multipart_payload : CreateEtchPacket → result Files).

(** One call on a request class: it is recorded and answered. *)
Definition send (req : request Files) : io Files pyval :=
  IO (λ tr, (tr ++ [req], transport tr req)).

(** [Anvil.query(self, query, variables=None, **kwargs)] *)
Definition query (query : string) (variables : pyval) (kwargs : pydict) : io Files pyval :=
  send (GraphqlPost query variables kwargs).

(** The call [self.query(text, **kwargs)] of the [get_*] operations: a
    [variables] key of [kwargs] binds the parameter of that name. *)
Definition query_kwargs (text : string) (kwargs : pydict) : io Files pyval :=
  if collides ["self"; "query"] kwargs
  then mthrow (TypeError msg_multiple_values)
  else query text (default PNone (kwargs !! "variables")) (delete "variables" kwargs).

(** [Anvil.mutate(self, query, variables, **kwargs)] *)
Definition mutate {P} (M : MutationType P) (query : M) (variables : pydict)
    (kwargs : pydict) : io Files pyval :=
  send (GraphqlPost (get_mutation M query) (PDict variables) kwargs).

(** [Anvil.mutate_multipart(self, files, **kwargs)] *)
Definition mutate_multipart (files : Files) (kwargs : pydict) : io Files pyval :=
  send (GraphqlPostMultipart files kwargs).

(** The parameters of [RestRequest.post(self, url, data, **kwargs)]: a
    keyword argument of one of these names collides with the URL and the
    body the facade passes. *)
Definition rest_post_parameters : list string := ["self"; "url"; "data"].

(** [Anvil.fill_pdf(self, template_id, payload, **kwargs)].  After the
    normalization [data] is an instance, hence truthy, so the body of the
    POST is always [data.dict(by_alias=True, exclude_none=True)].  The URL
    and the body are passed by position, so a keyword argument named
    [url] or [data] is a [TypeError] at the call. *)
Definition fill_pdf (template_id : string) (payload : argument FillPDFPayload)
    (kwargs : pydict) : io Files pyval :=
  data ← lift (except_KeyError
    match payload with
    | Value (PDict d) => model_init FillPDFPayload d
    | Value (PStr s) => parse_raw json_loads FillPDFPayload s
    | Instance i => Ok i
    | _ => Raise (ValueError msg_json_or_dict)
    end);
  let version_number := default PNone (kwargs !! "version_number") in
  let kwargs := delete "version_number" kwargs in
  let kwargs :=
    if py_truthy version_number
    then <["params" := PDict {[ "versionNumber" := version_number ]}]> kwargs
    else kwargs in
  if collides rest_post_parameters kwargs
  then mthrow (TypeError msg_multiple_values)
  else send (RestPost ("fill/" +:+ template_id +:+ ".pdf")
                      (to_dict FillPDFPayload data) kwargs).

(** [Anvil.generate_pdf(self, payload, **kwargs)].  The body is passed as
    the keyword [data=], so a [data] key of [kwargs] is a [TypeError] at
    the call, as is one named [url]. *)
Definition generate_pdf (payload : argument GeneratePDFPayload)
    (kwargs : pydict) : io Files pyval :=
  if negb (truthy payload) then mthrow (ValueError msg_json_or_dict) else
  data ← lift
    match payload with
    | Value (PDict d) => model_init GeneratePDFPayload d
    | Value (PStr s) => parse_raw json_loads GeneratePDFPayload s
    | Instance i => Ok i
    | _ => Raise (ValueError msg_json_or_dict)
    end;
  if collides rest_post_parameters kwargs
  then mthrow (TypeError msg_multiple_values)
  else send (RestPost "generate-pdf" (to_dict GeneratePDFPayload data) kwargs).

(** [Anvil.get_cast(self, eid, fields=None, version_number=None,
    cast_args=None, **kwargs)] *)
Definition get_cast (eid : string) (fields : option (list string))
    (version_number : option Z) (cast_args : option (list (string * string)))
    (kwargs : pydict) : io Files pyval :=
  res ← query_kwargs (get_cast_query eid fields version_number cast_args) kwargs;
  lift (_get_return res get_data_cast).

(** [Anvil.get_casts(self, fields=None, show_all=False, **kwargs)] *)
Definition get_casts (fields : option (list string)) (show_all : bool)
    (kwargs : pydict) : io Files pyval :=
  res ← query_kwargs (get_casts_query fields show_all) kwargs;
  lift (_get_return res (get_data_orgs "casts")).

(** [Anvil.get_welds(self, **kwargs)] *)
Definition get_welds (kwargs : pydict) : io Files pyval :=
  res ← query_kwargs welds_query kwargs;
  lift (_get_return res (get_data_orgs "welds")).

(** [Anvil.create_etch_packet(self, payload=None, json=None, **kwargs)];
    the classes it knows are the typed payload and the typed mutation. *)
Definition create_etch_packet
    (payload : argument (CreateEtchPacketPayload + CreateEtchPacket))
    (json : option string) (kwargs : pydict) : io Files pyval :=
  if negb (truthy payload || json_truthy json)
  then mthrow (TypeError msg_payload_or_json) else
  payload ← lift
    match json with
    | Some s =>
        if json_truthy json
        then p ← parse_raw json_loads CreateEtchPacketPayload s;
             Ok (Instance (inl p))
        else Ok payload
    | None => Ok payload
    end;
  mutation ← lift
    match payload with
    | Value (PDict d) => create_from_dict CreateEtchPacket d
    | Instance (inl p) => of_payload CreateEtchPacket p
    | Instance (inr m) => Ok m
    | _ => Raise (ValueError msg_etch_payload)
    end;
  files ← lift (get_multipart_payload mutation);
  if collides ["self"; "files"] kwargs
  then mthrow (TypeError msg_multiple_values)
  else mutate_multipart files kwargs.

(** [Anvil.forge_submit(self, payload=None, json=None, **kwargs)] *)
Definition forge_submit (payload : argument ForgeSubmitPayload)
    (json : option string) (kwargs : pydict) : io Files pyval :=
  if negb (json_truthy json || truthy payload)
  then mthrow (TypeError msg_json_or_payload) else
  payload ← lift
    match json with
    | Some s =>
        if json_truthy json
        then p ← parse_raw json_loads ForgeSubmitPayload s;
             Ok (Instance p)
        else Ok payload
    | None => Ok payload
    end;
  mutation ← lift
    match payload with
    | Value (PDict d) => create_from_dict ForgeSubmit d
    | Instance p => of_payload ForgeSubmit p
    | _ => Raise (ValueError msg_forge_payload)
    end;
  created ← lift (create_payload ForgeSubmit mutation);
  let variables := to_dict ForgeSubmitPayload created in
  if collides ["self"; "query"; "variables"] kwargs
  then mthrow (TypeError msg_multiple_values)
  else mutate ForgeSubmit mutation variables kwargs.


(** *** The other operations *)

(** [get_data] of [get_current_user]: [r["data"]["currentUser"]] *)
Definition get_data_current_user (r : pyval) : result pyval :=
  data ← py_getitem r "data";
  py_getitem data "currentUser".

(** [get_data] of [get_weld]: [r["data"]["weld"]] *)
Definition get_data_weld (r : pyval) : result pyval :=
  data ← py_getitem r "data";
  py_getitem data "weld".

(** The query text of [get_current_user]. *)
Definition current_user_query : string :=
  "{" +:+ nl +:+
  indent 14 +:+ "currentUser {" +:+ nl +:+
  indent 16 +:+ "name" +:+ nl +:+
  indent 16 +:+ "email" +:+ nl +:+
  indent 16 +:+ "eid" +:+ nl +:+
  indent 16 +:+ "role" +:+ nl +:+
  indent 16 +:+ "organizations {" +:+ nl +:+
  indent 18 +:+ "eid" +:+ nl +:+
  indent 18 +:+ "name" +:+ nl +:+
  indent 18 +:+ "slug" +:+ nl +:+
  indent 18 +:+ "casts {" +:+ nl +:+
  indent 20 +:+ "eid" +:+ nl +:+
  indent 20 +:+ "name" +:+ nl +:+
  indent 18 +:+ "}" +:+ nl +:+
  indent 16 +:+ "}" +:+ nl +:+
  indent 14 +:+ "}" +:+ nl +:+
  indent 12 +:+ "}" +:+ nl +:+
  indent 12.

(** The query text of [get_weld]. *)
Definition weld_query : string :=
  nl +:+
  indent 12 +:+ "query WeldQuery(" +:+ nl +:+
  indent 16 +:+ "#$organizationSlug: String!," +:+ nl +:+
  indent 16 +:+ "#$slug: String!" +:+ nl +:+
  indent 16 +:+ "$eid: String!" +:+ nl +:+
  indent 12 +:+ ") {" +:+ nl +:+
  indent 16 +:+ "weld(" +:+ nl +:+
  indent 20 +:+ "#organizationSlug: $organizationSlug," +:+ nl +:+
  indent 20 +:+ "#slug: $slug" +:+ nl +:+
  indent 20 +:+ "eid: $eid" +:+ nl +:+
  indent 16 +:+ ") {" +:+ nl +:+
  indent 20 +:+ "eid" +:+ nl +:+
  indent 20 +:+ "slug" +:+ nl +:+
  indent 20 +:+ "name" +:+ nl +:+
  indent 20 +:+ "forges {" +:+ nl +:+
  indent 24 +:+ "eid" +:+ nl +:+
  indent 24 +:+ "name" +:+ nl +:+
  indent 24 +:+ "slug" +:+ nl +:+
  indent 20 +:+ "}" +:+ nl +:+
  indent 16 +:+ "}" +:+ nl +:+
  indent 12 +:+ "}".

(** [Anvil.get_current_user(self, **kwargs)] *)
Definition get_current_user (kwargs : pydict) : io Files pyval :=
  res ← query_kwargs current_user_query kwargs;
  lift (_get_return res get_data_current_user).

(** [Anvil.get_weld(self, eid, **kwargs)]; the call
    [self.query(text, variables=dict(eid=eid), **kwargs)] gives [variables]
    by keyword, so a [variables] key of [kwargs] names a parameter already
    given. *)
Definition get_weld (eid : string) (kwargs : pydict) : io Files pyval :=
  res ← (if collides ["self"; "query"; "variables"] kwargs
         then mthrow (TypeError msg_multiple_values)
         else query weld_query (PDict {[ "eid" := PStr eid ]}) kwargs);
  lift (_get_return res get_data_weld).

(** The mutation class of [generate_etch_signing_url] with its payload
    type, the constructor call
    [GenerateEtchSigningURL(signer_eid=..., client_user_id=...)] and the
    serialization [.dict(by_alias=True)] of its payload, none of them among
    the sources and taken as they come. *)
Context (GenerateEtchSigningURLPayload : PayloadType).
Context (GenerateEtchSigningURL : MutationType GenerateEtchSigningURLPayload).
Context (signing_url_init : string → string → result GenerateEtchSigningURL).
Context (dict_by_alias : GenerateEtchSigningURLPayload → pydict).

(** [Anvil.generate_etch_signing_url(self, signer_eid, client_user_id,
    **kwargs)] *)
Definition generate_etch_signing_url (signer_eid client_user_id : string)
    (kwargs : pydict) : io Files pyval :=
  mutation ← lift (signing_url_init signer_eid client_user_id);
  payload ← lift (create_payload GenerateEtchSigningURL mutation);
  let variables := dict_by_alias payload in
  if collides ["self"; "query"; "variables"] kwargs
  then mthrow (TypeError msg_multiple_values)
  else mutate GenerateEtchSigningURL mutation variables kwargs.

(** The list object a caller passed to [get_cast] as [cast_args], as the
    call leaves it: an empty list is falsy, so [get_cast] binds a new list
    and the caller's stays empty; a non-empty one is extended in place by
    the [append]s. *)
Definition cast_args_after (eid : string) (version_number : option Z)
    (cast_args : list (string * string)) : list (string * string) :=
  match cast_args with
  | [] => []
  | _ :: _ => get_cast_args eid version_number (Some cast_args)
  end.

(** *** Vocabulary of the properties *)

(** The argument is "a mapping, a string or a typed instance". *)
Definition is_payload_form {I : Type} (a : argument I) : bool :=
  match a with
  | Value (PDict _) | Value (PStr _) | Instance _ => true
  | _ => false
  end.

(** The argument of [create_etch_packet] is of a supported kind: a dict, a
    typed payload or a typed mutation. *)
Definition is_etch_form {I : Type} (a : argument I) : bool :=
  match a with
  | Value (PDict _) | Instance _ => true
  | _ => false
  end.

(** [op] issues exactly one REST POST, to [url] with [body], and returns
    what the call answers. *)
Definition posts_once (op : io Files pyval) (tr : list (request Files))
    (url : string) (body : pydict) : Prop :=
  ∃ kwargs', run op tr =
    (tr ++ [RestPost url body kwargs'], transport tr (RestPost url body kwargs')).

(** [op] raises [e] and makes no call. *)
Definition raises_offline (op : io Files pyval) (tr : list (request Files))
    (e : exn) : Prop :=
  run op tr = (tr, Raise e).

(** A collaborator that never raises a [TypeError]. *)
Definition no_type_error {A B : Type} (f : A → result B) : Prop :=
  ∀ a e, f a = Raise e → is_type_error e = false.


(** The fixed parts of the text of [get_cast]. *)
Definition cast_head : string := "{" +:+ nl +:+ indent 14 +:+ "cast ".
Definition cast_mid : string := " {" +:+ nl +:+ indent 16.
Definition cast_tail : string :=
  nl +:+ indent 14 +:+ "}" +:+ nl +:+ indent 12 +:+ "}".

(** The answer [res] is not the envelope of a response and its headers. *)
Definition bare (res : pydict) : Prop :=
  res !! "response" = None ∨ res !! "headers" = None.

(** The call [self.query(text, **kwargs)] sends, when [kwargs] names no
    parameter already given. *)
Definition query_request (text : string) (kwargs : pydict) : request Files :=
  GraphqlPost text (default PNone (kwargs !! "variables")) (delete "variables" kwargs).

(** [op] makes at most one call: it raises with no call made, or it makes
    exactly one call after those made before. *)
Definition single_call (op : io Files pyval) : Prop :=
  ∀ tr, (∃ e, run op tr = (tr, Raise e))
        ∨ (∃ req r, run op tr = (tr ++ [req], r)).

(** The argument of [forge_submit] is of a supported kind: a dict or a
    typed payload. *)
Definition is_forge_form {I : Type} (a : argument I) : bool :=
  match a with
  | Value (PDict _) | Instance _ => true
  | _ => false
  end.

(** The number of occurrences of the character [c] in [s]. *)
Fixpoint count_char (c : ascii) (s : string) : nat :=
  match s with
  | EmptyString => 0
  | String x s' => (if Ascii.eqb c x then 1 else 0) + count_char c s'
  end.

(** ** Properties *)

(** Unfolding the two monads. *)
Ltac io_unfold :=
  unfold mbind, mthrow, mret, io_bind, io_throw, io_ret, result_bind,
    result_throw, result_ret, lift, send; simpl.

(** [res["response"]] and [res["headers"]] on a dict, and the membership
    tests of [_get_return]. *)
Lemma py_contains_dict (k : string) (d : pydict) :
  py_contains k (PDict d) = Ok (bool_decide (is_Some (d !! k))).
Proof. reflexivity. Qed.

Lemma contains_Some (k : string) (d : pydict) (v : pyval) :
  d !! k = Some v → bool_decide (is_Some (d !! k)) = true.
Proof. intros H. apply bool_decide_eq_true. rewrite H. eauto. Qed.

Lemma contains_None (k : string) (d : pydict) :
  d !! k = None → bool_decide (is_Some (d !! k)) = false.
Proof. intros H. apply bool_decide_eq_false. rewrite H. by intros [? ?]. Qed.

(** The envelope case of [_get_return]. *)
Lemma get_return_envelope (d : pydict) (f : pyval → result pyval) (r h : pyval) :
  d !! "response" = Some r → d !! "headers" = Some h →
  _get_return (PDict d) f =
    (extracted ← f r; Ok (PDict {[ "response" := extracted; "headers" := h ]})).
Proof.
  intros Hr Hh. unfold _get_return. rewrite !py_contains_dict.
  rewrite (contains_Some _ _ _ Hr), (contains_Some _ _ _ Hh).
  io_unfold. rewrite Hr, Hh. reflexivity.
Qed.

(** The bare case of [_get_return]. *)
Lemma get_return_bare (d : pydict) (f : pyval → result pyval) :
  d !! "response" = None ∨ d !! "headers" = None →
  _get_return (PDict d) f = f (PDict d).
Proof.
  intros H. unfold _get_return. rewrite !py_contains_dict.
  destruct H as [H|H].
  - rewrite (contains_None _ _ H). reflexivity.
  - destruct (bool_decide (is_Some (d !! "response")));
      [rewrite (contains_None _ _ H)|]; reflexivity.
Qed.

(** C1: for every raw result [res] (a dict) and extraction function [f],
    [_get_return] returns the dict with ["response"] bound to
    [f(res["response"])] and ["headers"] bound to [res["headers"]] whenever
    [res] has both keys, and returns [f(res)] otherwise.  An exception of
    [f] is the outcome in either case. *)
Theorem get_return_unwraps (res : pydict) (f : pyval → result pyval) :
  (∀ r h, res !! "response" = Some r → res !! "headers" = Some h →
     _get_return (PDict res) f =
       (extracted ← f r; Ok (PDict {[ "response" := extracted; "headers" := h ]})))
  ∧ (res !! "response" = None ∨ res !! "headers" = None →
     _get_return (PDict res) f = f (PDict res)).
Proof.
  split.
  - intros r h. apply get_return_envelope.
  - apply get_return_bare.
Qed.

(** *** Payload normalization *)

Lemma has_required_missing (P : PayloadType) (d : pydict) (f : string) :
  f ∈ required P → d !! f = None → has_required P d = false.
Proof.
  intros Hin Hd. unfold has_required.
  apply not_true_is_false. intros Hall.
  rewrite forallb_forall in Hall.
  specialize (Hall f (proj1 (list_elem_of_In _ _) Hin)).
  rewrite (contains_None _ _ Hd) in Hall. discriminate.
Qed.

Lemma model_init_missing (P : PayloadType) (d : pydict) (f : string) :
  f ∈ required P → d !! f = None →
  model_init P d = Raise (ValidationError "field required").
Proof.
  intros Hin Hd. unfold model_init.
  by rewrite (has_required_missing P d f Hin Hd).
Qed.

Lemma parse_raw_dict (P : PayloadType) (s : string) (d : pydict) :
  json_loads s = Ok (PDict d) → parse_raw json_loads P s = model_init P d.
Proof. intros H. unfold parse_raw. by rewrite H. Qed.

(** Popping [version_number] and setting [params] touches no parameter
    name of the POST. *)
Lemma collides_rest_after (kwargs : pydict) (v : pyval) :
  collides rest_post_parameters
    (if py_truthy v
     then <["params" := PDict {[ "versionNumber" := v ]}]>
            (delete "version_number" kwargs)
     else delete "version_number" kwargs) =
  collides rest_post_parameters kwargs.
Proof.
  unfold collides, rest_post_parameters. cbn [existsb].
  destruct (py_truthy v).
  - by rewrite !lookup_insert_ne, !lookup_delete_ne.
  - by rewrite !lookup_delete_ne.
Qed.

(** [fill_pdf] on a typed instance, whatever the keyword arguments. *)
Lemma fill_pdf_instance_run (template_id : string) (i : FillPDFPayload)
    (kwargs : pydict) (tr : list (request Files)) :
  let version_number := default PNone (kwargs !! "version_number") in
  let kwargs' :=
    if py_truthy version_number
    then <["params" := PDict {[ "versionNumber" := version_number ]}]>
           (delete "version_number" kwargs)
    else delete "version_number" kwargs in
  let req := RestPost ("fill/" +:+ template_id +:+ ".pdf")
                      (to_dict FillPDFPayload i) kwargs' in
  run (fill_pdf template_id (Instance i) kwargs) tr =
  if collides rest_post_parameters kwargs
  then (tr, Raise (TypeError msg_multiple_values))
  else (tr ++ [req], transport tr req).
Proof.
  intros version_number kwargs' req. unfold fill_pdf.
  unfold mbind, io_bind, lift, mthrow, io_throw. cbn [run except_KeyError].
  rewrite (collides_rest_after kwargs (default PNone (kwargs !! "version_number"))).
  by destruct (collides rest_post_parameters kwargs).
Qed.

(** The keyword arguments [fill_pdf] hands to the POST. *)
Lemma fill_pdf_instance (template_id : string) (i : FillPDFPayload)
    (kwargs : pydict) (tr : list (request Files)) :
  collides rest_post_parameters kwargs = false →
  let version_number := default PNone (kwargs !! "version_number") in
  let kwargs' :=
    if py_truthy version_number
    then <["params" := PDict {[ "versionNumber" := version_number ]}]>
           (delete "version_number" kwargs)
    else delete "version_number" kwargs in
  let req := RestPost ("fill/" +:+ template_id +:+ ".pdf")
                      (to_dict FillPDFPayload i) kwargs' in
  run (fill_pdf template_id (Instance i) kwargs) tr = (tr ++ [req], transport tr req).
Proof.
  intros Hc version_number kwargs' req.
  pose proof (fill_pdf_instance_run template_id i kwargs tr) as Hrun.
  cbv zeta in Hrun. by rewrite Hc in Hrun.
Qed.

Lemma fill_pdf_dict (template_id : string) (d : pydict) (i : FillPDFPayload)
    (kwargs : pydict) (tr : list (request Files)) :
  model_init FillPDFPayload d = Ok i →
  run (fill_pdf template_id (Value (PDict d)) kwargs) tr =
  run (fill_pdf template_id (Instance i) kwargs) tr.
Proof. intros H. unfold fill_pdf. io_unfold. by rewrite H. Qed.

Lemma fill_pdf_str (template_id s : string) (d : pydict) (i : FillPDFPayload)
    (kwargs : pydict) (tr : list (request Files)) :
  json_loads s = Ok (PDict d) → model_init FillPDFPayload d = Ok i →
  run (fill_pdf template_id (Value (PStr s)) kwargs) tr =
  run (fill_pdf template_id (Instance i) kwargs) tr.
Proof.
  intros Hs H. unfold fill_pdf. io_unfold.
  by rewrite (parse_raw_dict _ _ _ Hs), H.
Qed.

Lemma fill_pdf_posts (template_id : string) (i : FillPDFPayload)
    (kwargs : pydict) (tr : list (request Files)) :
  collides rest_post_parameters kwargs = false →
  posts_once (fill_pdf template_id (Instance i) kwargs) tr
    ("fill/" +:+ template_id +:+ ".pdf") (to_dict FillPDFPayload i).
Proof. intros Hc. unfold posts_once. eexists. by apply fill_pdf_instance. Qed.


Lemma truthy_dict (d : pydict) : d ≠ ∅ → py_truthy (PDict d) = true.
Proof. intros H. simpl. by rewrite bool_decide_eq_false_2. Qed.

Lemma truthy_str (s : string) : s ≠ EmptyString → py_truthy (PStr s) = true.
Proof.
  intros H. simpl. destruct (String.eqb_spec s EmptyString); [contradiction|done].
Qed.




(** C3, as the code has it: [fill_pdf] on a payload that lacks a required
    field, given as a mapping or as the JSON text of one, raises an
    exception that is a [ValueError] and makes no call; on a payload that
    is not a mapping, a string or a typed instance it raises [ValueError];
    on a payload that has its required fields and validates to the
    instance [i], when no keyword argument names a parameter of the POST,
    it issues exactly one REST POST, to [fill/{template_id}.pdf], with the
    serialized payload as body. *)
Theorem fill_pdf_outcomes (template_id : string) (kwargs : pydict)
    (tr : list (request Files)) :
  (∀ (d : pydict) (f : string),
     f ∈ required FillPDFPayload → d !! f = None →
     ∃ e, is_value_error e = true ∧
          raises_offline (fill_pdf template_id (Value (PDict d)) kwargs) tr e)
  ∧ (∀ (s : string) (d : pydict) (f : string),
     json_loads s = Ok (PDict d) →
     f ∈ required FillPDFPayload → d !! f = None →
     ∃ e, is_value_error e = true ∧
          raises_offline (fill_pdf template_id (Value (PStr s)) kwargs) tr e)
  ∧ (∀ payload : argument FillPDFPayload,
     is_payload_form payload = false →
     raises_offline (fill_pdf template_id payload kwargs) tr
       (ValueError msg_json_or_dict))
  ∧ (∀ (payload : argument FillPDFPayload) (s : string) (d : pydict)
       (i : FillPDFPayload),
     has_required FillPDFPayload d = true → validate FillPDFPayload d = Ok i →
     collides rest_post_parameters kwargs = false →
     payload = Value (PDict d)
     ∨ (payload = Value (PStr s) ∧ json_loads s = Ok (PDict d))
     ∨ payload = Instance i →
     posts_once (fill_pdf template_id payload kwargs) tr
       ("fill/" +:+ template_id +:+ ".pdf") (to_dict FillPDFPayload i)).
Proof.
  repeat split.
  - intros d f Hin Hd. exists (ValidationError "field required"). split; [done|].
    unfold raises_offline, fill_pdf. io_unfold.
    by rewrite (model_init_missing _ d f Hin Hd).
  - intros s d f Hs Hin Hd. exists (ValidationError "field required"). split; [done|].
    unfold raises_offline, fill_pdf. io_unfold.
    by rewrite (parse_raw_dict _ _ _ Hs), (model_init_missing _ d f Hin Hd).
  - intros payload Hform. unfold raises_offline, fill_pdf.
    destruct payload as [v|i|b]; [destruct v| |]; try discriminate; reflexivity.
  - intros payload s d i Hreq Hval Hc Hform.
    assert (model_init FillPDFPayload d = Ok i) as Hi.
    { unfold model_init. by rewrite Hreq. }
    unfold posts_once.
    destruct Hform as [->|[[-> Hs]| ->]].
    + rewrite (fill_pdf_dict _ d i) by done. by apply fill_pdf_posts.
    + rewrite (fill_pdf_str _ s d i) by done. by apply fill_pdf_posts.
    + by apply fill_pdf_posts.
Qed.

(** C8: [generate_pdf] on a falsy payload (empty dict, empty string,
    [None], ...) or on a payload that is not a mapping, a string or a typed
    instance raises [ValueError] and makes no call. *)
Theorem generate_pdf_rejects (payload : argument GeneratePDFPayload)
    (kwargs : pydict) (tr : list (request Files)) :
  truthy payload = false ∨ is_payload_form payload = false →
  raises_offline (generate_pdf payload kwargs) tr (ValueError msg_json_or_dict).
Proof.
  intros H. unfold raises_offline, generate_pdf.
  destruct (truthy payload) eqn:Ht; [|reflexivity].
  destruct H as [H|H]; [discriminate|].
  destruct payload as [v|i|b]; [destruct v| |]; try discriminate; reflexivity.
Qed.

(** *** Version numbers *)

Lemma py_truthy_zero : py_truthy (PInt 0) = false.
Proof. reflexivity. Qed.

Lemma collides_rest_version (kwargs : pydict) (v : pyval) :
  collides rest_post_parameters (<["version_number" := v]> kwargs) =
  collides rest_post_parameters kwargs.
Proof.
  unfold collides, rest_post_parameters. cbn [existsb].
  by rewrite !lookup_insert_ne.
Qed.

(** C10: [version_number=0] is the same as no [version_number]: [fill_pdf]
    does what it does without the keyword, and its POST (made when no
    keyword argument names a parameter of the POST) has no [versionNumber]
    parameter; [get_cast] builds the query it builds without the
    argument, with no [versionNumber] pair; the negative sentinels
    [VERSION_LATEST] and [VERSION_LATEST_PUBLISHED] are passed on, as the
    [params] of the POST and as a [versionNumber] pair of the query. *)
Theorem version_zero_is_absent (kwargs : pydict) (tr : list (request Files)) :
  (∀ (template_id : string) (payload : argument FillPDFPayload),
     run (fill_pdf template_id payload (<["version_number" := PInt 0]> kwargs)) tr =
     run (fill_pdf template_id payload (delete "version_number" kwargs)) tr)
  ∧ (∀ (template_id : string) (i : FillPDFPayload),
     collides rest_post_parameters kwargs = false →
     let req := RestPost ("fill/" +:+ template_id +:+ ".pdf")
                  (to_dict FillPDFPayload i) (delete "version_number" kwargs) in
     run (fill_pdf template_id (Instance i) (<["version_number" := PInt 0]> kwargs)) tr =
     (tr ++ [req], transport tr req))
  ∧ (∀ (eid : string) (fields : option (list string))
       (cast_args : option (list (string * string))),
     get_cast_args eid (Some 0%Z) cast_args =
       default [] cast_args ++ [("eid", quoted eid)]
     ∧ get_cast_query eid fields (Some 0%Z) cast_args =
       get_cast_query eid fields None cast_args
     ∧ run (get_cast eid fields (Some 0%Z) cast_args kwargs) tr =
       run (get_cast eid fields None cast_args kwargs) tr)
  ∧ (∀ (template_id : string) (i : FillPDFPayload),
     collides rest_post_parameters kwargs = false →
     let req v := RestPost ("fill/" +:+ template_id +:+ ".pdf")
                  (to_dict FillPDFPayload i)
                  (<["params" := PDict {[ "versionNumber" := PInt v ]}]>
                     (delete "version_number" kwargs)) in
     run (fill_pdf template_id (Instance i)
            (<["version_number" := PInt VERSION_LATEST]> kwargs)) tr =
       (tr ++ [req VERSION_LATEST], transport tr (req VERSION_LATEST))
     ∧ run (fill_pdf template_id (Instance i)
            (<["version_number" := PInt VERSION_LATEST_PUBLISHED]> kwargs)) tr =
       (tr ++ [req VERSION_LATEST_PUBLISHED],
        transport tr (req VERSION_LATEST_PUBLISHED)))
  ∧ (∀ (eid : string) (cast_args : option (list (string * string))),
     get_cast_args eid (Some VERSION_LATEST) cast_args =
       default [] cast_args ++ [("eid", quoted eid); ("versionNumber", "-1")]
     ∧ get_cast_args eid (Some VERSION_LATEST_PUBLISHED) cast_args =
       default [] cast_args ++ [("eid", quoted eid); ("versionNumber", "-2")]).
Proof.
  split; [|split; [|split; [|split]]].
  - intros template_id payload. unfold fill_pdf.
    rewrite lookup_insert_eq, delete_insert_eq, lookup_delete_eq, delete_delete_eq.
    reflexivity.
  - intros template_id i Hc.
    rewrite fill_pdf_instance by (by rewrite collides_rest_version).
    rewrite lookup_insert_eq, delete_insert_eq. reflexivity.
  - intros eid fields cast_args. split; [|split]; reflexivity.
  - intros template_id i Hc. split.
    + rewrite fill_pdf_instance by (by rewrite collides_rest_version).
      rewrite lookup_insert_eq, delete_insert_eq. reflexivity.
    + rewrite fill_pdf_instance by (by rewrite collides_rest_version).
      rewrite lookup_insert_eq, delete_insert_eq. reflexivity.
  - intros eid cast_args. unfold get_cast_args. simpl.
    by rewrite <- !app_assoc.
Qed.

(** *** The mutations *)

Lemma parse_raw_no_type_error (P : PayloadType) :
  no_type_error (validate P) → no_type_error (parse_raw json_loads P).
Proof.
  intros Hv s e. unfold parse_raw, model_init.
  destruct (json_loads s) as [[]|]; try (intros [= <-]; reflexivity).
  destruct (has_required P d); [apply Hv|]. by intros [= <-].
Qed.

(** With a non-empty [json], [create_etch_packet] is the pipeline on the
    parsed text, whatever [payload] is. *)
Lemma create_etch_packet_json
    (payload : argument (CreateEtchPacketPayload + CreateEtchPacket))
    (s : string) (kwargs : pydict) (tr : list (request Files)) :
  s ≠ EmptyString →
  run (create_etch_packet payload (Some s) kwargs) tr =
  run (p ← lift (parse_raw json_loads CreateEtchPacketPayload s);
       mutation ← lift (of_payload CreateEtchPacket p);
       files ← lift (get_multipart_payload mutation);
       if collides ["self"; "files"] kwargs
       then mthrow (TypeError msg_multiple_values)
       else mutate_multipart files kwargs) tr.
Proof.
  intros Hs. unfold create_etch_packet.
  assert (json_truthy (Some s) = true) as -> by (by apply truthy_str).
  rewrite orb_true_r. io_unfold.
  destruct (parse_raw json_loads CreateEtchPacketPayload s); reflexivity.
Qed.

Lemma forge_submit_json (payload : argument ForgeSubmitPayload)
    (s : string) (kwargs : pydict) (tr : list (request Files)) :
  s ≠ EmptyString →
  run (forge_submit payload (Some s) kwargs) tr =
  run (p ← lift (parse_raw json_loads ForgeSubmitPayload s);
       mutation ← lift (of_payload ForgeSubmit p);
       created ← lift (create_payload ForgeSubmit mutation);
       if collides ["self"; "query"; "variables"] kwargs
       then mthrow (TypeError msg_multiple_values)
       else mutate ForgeSubmit mutation (to_dict ForgeSubmitPayload created) kwargs) tr.
Proof.
  intros Hs. unfold forge_submit.
  assert (json_truthy (Some s) = true) as -> by (by apply truthy_str).
  rewrite orb_true_l. io_unfold.
  destruct (parse_raw json_loads ForgeSubmitPayload s); reflexivity.
Qed.

(** C9: when [json] is given (a non-empty text), [create_etch_packet] and
    [forge_submit] do what they do with [json] alone, whatever [payload]
    is: no error comes from having both, and the request sent is the one
    derived from parsing [json]. *)
Theorem json_takes_precedence (s : string) (kwargs : pydict)
    (tr : list (request Files)) :
  s ≠ EmptyString →
  (∀ payload,
     run (create_etch_packet payload (Some s) kwargs) tr =
     run (create_etch_packet (Value PNone) (Some s) kwargs) tr)
  ∧ (∀ payload p m files,
     parse_raw json_loads CreateEtchPacketPayload s = Ok p →
     of_payload CreateEtchPacket p = Ok m →
     get_multipart_payload m = Ok files →
     collides ["self"; "files"] kwargs = false →
     let req := GraphqlPostMultipart files kwargs in
     run (create_etch_packet payload (Some s) kwargs) tr =
     (tr ++ [req], transport tr req))
  ∧ (∀ payload,
     run (forge_submit payload (Some s) kwargs) tr =
     run (forge_submit (Value PNone) (Some s) kwargs) tr)
  ∧ (∀ payload p m created,
     parse_raw json_loads ForgeSubmitPayload s = Ok p →
     of_payload ForgeSubmit p = Ok m →
     create_payload ForgeSubmit m = Ok created →
     collides ["self"; "query"; "variables"] kwargs = false →
     let req := GraphqlPost (get_mutation ForgeSubmit m)
                  (PDict (to_dict ForgeSubmitPayload created)) kwargs in
     run (forge_submit payload (Some s) kwargs) tr =
     (tr ++ [req], transport tr req)).
Proof.
  intros Hs. split; [|split; [|split]].
  - intros payload. by rewrite !create_etch_packet_json.
  - intros payload p m files Hp Hm Hf Hc.
    rewrite create_etch_packet_json by done. io_unfold.
    rewrite Hp, Hm, Hf. simpl in Hc |- *. rewrite Hc. reflexivity.
  - intros payload. by rewrite !forge_submit_json.
  - intros payload p m created Hp Hm Hcr Hc.
    rewrite forge_submit_json by done. io_unfold.
    rewrite Hp, Hm, Hcr. simpl in Hc |- *. rewrite Hc. reflexivity.
Qed.


(** From the mutation on, [create_etch_packet] raises no [TypeError] when
    its collaborators raise none and no keyword argument names a parameter
    of [mutate_multipart]. *)
Lemma etch_tail_no_type_error (r : result CreateEtchPacket) (kwargs : pydict)
    (tr tr' : list (request Files)) (e : exn) :
  (∀ e', r = Raise e' → is_type_error e' = false) →
  no_type_error get_multipart_payload →
  (∀ tr0, no_type_error (transport tr0)) →
  collides ["self"; "files"] kwargs = false →
  run (mutation ← lift r;
       files ← lift (get_multipart_payload mutation);
       if collides ["self"; "files"] kwargs
       then mthrow (TypeError msg_multiple_values)
       else mutate_multipart files kwargs) tr = (tr', Raise e) →
  is_type_error e = false.
Proof.
  intros Hr Hg Ht Hc. rewrite Hc. io_unfold.
  destruct r as [m|e0].
  - destruct (get_multipart_payload m) as [files|e1] eqn:Hm; simpl.
    + intros [= _ He]. by apply (Ht tr (GraphqlPostMultipart files kwargs)).
    + intros [= _ <-]. by apply (Hg m).
  - intros [= _ <-]. by apply Hr.
Qed.

Lemma create_etch_packet_no_type_error
    (payload : argument (CreateEtchPacketPayload + CreateEtchPacket))
    (json : option string) (kwargs : pydict) (tr tr' : list (request Files))
    (e : exn) :
  no_type_error (validate CreateEtchPacketPayload) →
  no_type_error (create_from_dict CreateEtchPacket) →
  no_type_error (of_payload CreateEtchPacket) →
  no_type_error get_multipart_payload →
  (∀ tr0, no_type_error (transport tr0)) →
  collides ["self"; "files"] kwargs = false →
  truthy payload || json_truthy json = true →
  run (create_etch_packet payload json kwargs) tr = (tr', Raise e) →
  is_type_error e = false.
Proof.
  intros Hv Hd Hp Hg Ht Hc Htruthy. unfold create_etch_packet.
  rewrite Htruthy. simpl negb. cbv iota.
  assert (∀ a : argument (CreateEtchPacketPayload + CreateEtchPacket),
    ∀ e',
      match a with
      | Value (PDict d) => create_from_dict CreateEtchPacket d
      | Instance (inl p) => of_payload CreateEtchPacket p
      | Instance (inr m) => Ok m
      | _ => Raise (ValueError msg_etch_payload)
      end = Raise e' → is_type_error e' = false) as Hmut.
  { intros a e'. destruct a as [v|[p|m]|b]; [destruct v| | |];
      try (intros [= <-]; reflexivity); try discriminate.
    - apply Hd.
    - apply Hp. }
  assert (∀ a : argument (CreateEtchPacketPayload + CreateEtchPacket),
    run (payload0 ← lift (Ok a);
         mutation ← lift
           match payload0 with
           | Value (PDict d) => create_from_dict CreateEtchPacket d
           | Instance (inl p) => of_payload CreateEtchPacket p
           | Instance (inr m) => Ok m
           | _ => Raise (ValueError msg_etch_payload)
           end;
         files ← lift (get_multipart_payload mutation);
         if collides ["self"; "files"] kwargs
         then mthrow (TypeError msg_multiple_values)
         else mutate_multipart files kwargs) tr = (tr', Raise e) →
    is_type_error e = false) as Hfrom.
  { intros a Hrun.
    by apply (etch_tail_no_type_error _ kwargs tr tr' e (Hmut a) Hg Ht Hc). }
  destruct json as [s|]; [|apply Hfrom].
  destruct (json_truthy (Some s)); [|apply Hfrom].
  destruct (parse_raw json_loads CreateEtchPacketPayload s) as [p|e0] eqn:Hparse.
  - apply Hfrom.
  - io_unfold. intros [= _ <-].
    by apply (parse_raw_no_type_error CreateEtchPacketPayload Hv s).
Qed.

(** C4, as the code has it: [create_etch_packet] raises its type error,
    with no call made, when [payload] and [json] are both falsy (absent,
    [None] or empty); it raises a type error only then, provided its
    collaborators raise none and no keyword argument names a parameter of
    [mutate_multipart]; and it raises a value error, with no call made,
    when [json] is falsy and [payload] is a truthy value of none of the
    supported kinds. *)
Theorem create_etch_packet_errors
    (payload : argument (CreateEtchPacketPayload + CreateEtchPacket))
    (json : option string) (kwargs : pydict) (tr : list (request Files)) :
  (truthy payload = false → json_truthy json = false →
     raises_offline (create_etch_packet payload json kwargs) tr
       (TypeError msg_payload_or_json))
  ∧ (no_type_error (validate CreateEtchPacketPayload) →
     no_type_error (create_from_dict CreateEtchPacket) →
     no_type_error (of_payload CreateEtchPacket) →
     no_type_error get_multipart_payload →
     (∀ tr0, no_type_error (transport tr0)) →
     collides ["self"; "files"] kwargs = false →
     ∀ tr' msg,
       run (create_etch_packet payload json kwargs) tr = (tr', Raise (TypeError msg)) →
       truthy payload = false ∧ json_truthy json = false)
  ∧ (json_truthy json = false → truthy payload = true →
     is_etch_form payload = false →
     raises_offline (create_etch_packet payload json kwargs) tr
       (ValueError msg_etch_payload)).
Proof.
  split; [|split].
  - intros Hp Hj. unfold raises_offline, create_etch_packet.
    by rewrite Hp, Hj.
  - intros Hv Hd Hp Hg Ht Hc tr' msg Hrun.
    destruct (truthy payload || json_truthy json) eqn:Htruthy.
    + pose proof (create_etch_packet_no_type_error payload json kwargs tr tr'
        (TypeError msg) Hv Hd Hp Hg Ht Hc Htruthy Hrun) as Hno.
      discriminate.
    + by apply orb_false_elim in Htruthy.
  - intros Hj Hp Hform. unfold raises_offline, create_etch_packet.
    rewrite Hp, Hj. simpl negb. cbv iota.
    destruct json as [s|];
      (destruct payload as [v|[p|m]|b]; [destruct v| | |]; try discriminate;
       reflexivity).
Qed.

(** *** Strings: prefixes and substrings *)

Lemma prefix_empty (s : string) : String.prefix EmptyString s = true.
Proof. by destruct s. Qed.

Lemma prefix_cons (a b : ascii) (p s : string) :
  String.prefix (String a p) (String b s) =
  if Ascii.eqb a b then String.prefix p s else false.
Proof.
  simpl. destruct (ascii_dec a b) as [->|Hne].
  - by rewrite Ascii.eqb_refl.
  - by rewrite (proj2 (Ascii.eqb_neq a b) Hne).
Qed.


Lemma prefix_app_l (p s b : string) :
  String.prefix p s = true → String.prefix p (s +:+ b) = true.
Proof.
  revert p. induction s as [|y s IH]; intros p.
  - destruct p; [intros _; apply prefix_empty|discriminate].
  - destruct p as [|a p]; [intros _; apply prefix_empty|].
    change (String y s +:+ b) with (String y (s +:+ b)).
    rewrite !prefix_cons. destruct (Ascii.eqb a y); [apply IH|done].
Qed.

Lemma is_substring_cons (p : string) (y : ascii) (s : string) :
  is_substring p (String y s) = String.prefix p (String y s) || is_substring p s.
Proof. reflexivity. Qed.

Lemma is_substring_app_r (p a s : string) :
  is_substring p s = true → is_substring p (a +:+ s) = true.
Proof.
  intros H. induction a as [|y a IH]; [done|].
  change (String y a +:+ s) with (String y (a +:+ s)).
  by rewrite is_substring_cons, IH, orb_true_r.
Qed.

Lemma is_substring_app_l (p s b : string) :
  is_substring p s = true → is_substring p (s +:+ b) = true.
Proof.
  induction s as [|y s IH].
  - simpl. rewrite orb_false_r. destruct p; [|discriminate].
    intros _. destruct b; reflexivity.
  - change (String y s +:+ b) with (String y (s +:+ b)).
    rewrite !is_substring_cons. intros [H|H]%orb_true_iff.
    + apply (prefix_app_l _ _ b) in H.
      change (String y s +:+ b) with (String y (s +:+ b)) in H. by rewrite H.
    + by rewrite (IH H), orb_true_r.
Qed.



Lemma is_substring_refl (p : string) : is_substring p p = true.
Proof. destruct p as [|a p]; [done|]. simpl.
  destruct (ascii_dec a a); [|done].
  assert (String.prefix p p = true) as ->; [|done].
  clear. induction p as [|b p IH]; [done|]. by rewrite prefix_cons, Ascii.eqb_refl.
Qed.









Lemma has_char_absent (c : ascii) (p s : string) :
  has_char c s = false → is_substring (String c p) s = false.
Proof.
  induction s as [|y s IH]; [done|].
  simpl has_char. intros [Hy Hs]%orb_false_elim.
  by rewrite is_substring_cons, prefix_cons, Hy, IH.
Qed.

(** *** The queries *)

Lemma query_kwargs_run (text : string) (kwargs : pydict) (tr : list (request Files)) :
  run (query_kwargs text kwargs) tr =
  if collides ["self"; "query"] kwargs
  then (tr, Raise (TypeError msg_multiple_values))
  else (tr ++ [query_request text kwargs], transport tr (query_request text kwargs)).
Proof. unfold query_kwargs. by destruct (collides _ kwargs). Qed.

(** An operation that posts a query and unwraps the answer with [get_data]. *)
Lemma query_unwrap_run (text : string) (get_data : pyval → result pyval)
    (kwargs : pydict) (tr : list (request Files)) :
  run (res ← query_kwargs text kwargs; lift (_get_return res get_data)) tr =
  if collides ["self"; "query"] kwargs
  then (tr, Raise (TypeError msg_multiple_values))
  else (tr ++ [query_request text kwargs],
        res ← transport tr (query_request text kwargs); _get_return res get_data).
Proof.
  change (run (res ← query_kwargs text kwargs; lift (_get_return res get_data)) tr)
    with (match run (query_kwargs text kwargs) tr with
          | (tr', Ok a) => run (lift (_get_return a get_data)) tr'
          | (tr', Raise e) => (tr', Raise e)
          end).
  rewrite query_kwargs_run. destruct (collides _ kwargs); [done|].
  by destruct (transport tr (query_request text kwargs)).
Qed.




(** A bare answer is unwrapped to the extracted data. *)
Lemma query_unwrap_bare (text : string) (get_data : pyval → result pyval)
    (kwargs : pydict) (tr : list (request Files)) (res : pydict) (v : pyval) :
  collides ["self"; "query"] kwargs = false →
  transport tr (query_request text kwargs) = Ok (PDict res) →
  bare res → get_data (PDict res) = Ok v →
  run (res ← query_kwargs text kwargs; lift (_get_return res get_data)) tr =
  (tr ++ [query_request text kwargs], Ok v).
Proof.
  intros Hc Ht Hbare Hv. rewrite query_unwrap_run, Hc, Ht. io_unfold.
  by rewrite (get_return_bare res get_data Hbare), Hv.
Qed.

(** An envelope is unwrapped to the extracted data with the headers. *)
Lemma query_unwrap_envelope (text : string) (get_data : pyval → result pyval)
    (kwargs : pydict) (tr : list (request Files)) (env : pydict)
    (r h v : pyval) :
  collides ["self"; "query"] kwargs = false →
  transport tr (query_request text kwargs) = Ok (PDict env) →
  env !! "response" = Some r → env !! "headers" = Some h →
  get_data r = Ok v →
  run (res ← query_kwargs text kwargs; lift (_get_return res get_data)) tr =
  (tr ++ [query_request text kwargs],
   Ok (PDict {[ "response" := v; "headers" := h ]})).
Proof.
  intros Hc Ht Hr Hh Hv. rewrite query_unwrap_run, Hc, Ht. io_unfold.
  by rewrite (get_return_envelope env get_data r h Hr Hh), Hv.
Qed.



Lemma cast_query_parts (arg_str fields : string) :
  cast_query arg_str fields =
  cast_head +:+ arg_str +:+ cast_mid +:+ fields +:+ cast_tail.
Proof. reflexivity. Qed.

Lemma get_cast_args_eid (eid : string) (version_number : option Z)
    (cast_args : option (list (string * string))) :
  ("eid", quoted eid) ∈ get_cast_args eid version_number cast_args.
Proof.
  unfold get_cast_args.
  assert (("eid", quoted eid) ∈ default [] cast_args ++ [("eid", quoted eid)]) as H.
  { apply elem_of_app. right. apply list_elem_of_singleton. reflexivity. }
  destruct version_number as [v|]; [|done].
  destruct (py_truthy (PInt v)); [|done].
  apply elem_of_app. by left.
Qed.

Lemma get_cast_arg_str_args (eid : string) (version_number : option Z)
    (cast_args : option (list (string * string))) :
  get_cast_arg_str (get_cast_args eid version_number cast_args) =
  "(" +:+ join "," (joined_args (get_cast_args eid version_number cast_args)) +:+ ")".
Proof.
  unfold get_cast_arg_str.
  rewrite bool_decide_eq_true_2; [done|].
  pose proof (get_cast_args_eid eid version_number cast_args) as Hin.
  destruct (get_cast_args eid version_number cast_args);
    [by apply elem_of_nil in Hin|done].
Qed.



(** The comprehension over organizations whose [key] field is a list. *)
Lemma flatten_orgs_lists (key : string) (orgs : list pydict)
    (itemss : list (list pyval)) :
  Forall2 (λ (org : pydict) items, org !! key = Some (PList items)) orgs itemss →
  flatten_orgs key (PDict <$> orgs) = Ok (concat itemss).
Proof.
  induction 1 as [|org items orgs itemss Horg _ IH]; [done|].
  rewrite fmap_cons. cbn [flatten_orgs py_getitem]. rewrite Horg.
  cbn [mbind result_bind py_iter]. rewrite IH. reflexivity.
Qed.

Lemma get_data_orgs_lists (key : string) (res data user : pydict)
    (orgs : list pydict) (itemss : list (list pyval)) :
  res !! "data" = Some (PDict data) →
  data !! "currentUser" = Some (PDict user) →
  user !! "organizations" = Some (PList (PDict <$> orgs)) →
  Forall2 (λ (org : pydict) items, org !! key = Some (PList items)) orgs itemss →
  get_data_orgs key (PDict res) = Ok (PList (concat itemss)).
Proof.
  intros Hd Hu Ho Hall. unfold get_data_orgs. cbn [py_getitem].
  rewrite Hd. cbn [mbind result_bind py_getitem].
  rewrite Hu. cbn [mbind result_bind py_getitem].
  rewrite Ho. cbn [mbind result_bind py_iter].
  by rewrite (flatten_orgs_lists key orgs itemss Hall).
Qed.

(** C7: for an answer whose data holds a [currentUser] with a list of
    organizations, each with a list of casts (of welds), [get_casts]
    ([get_welds]) returns the concatenation of these lists, in the order of
    the organizations and, within each, of its items; alone for a bare
    answer, and as the [response] of the envelope otherwise. *)
Theorem orgs_are_flattened (res data user : pydict) (orgs : list pydict)
    (kwargs : pydict) (tr : list (request Files)) :
  res !! "data" = Some (PDict data) →
  data !! "currentUser" = Some (PDict user) →
  user !! "organizations" = Some (PList (PDict <$> orgs)) →
  collides ["self"; "query"] kwargs = false →
  (∀ (castss : list (list pyval)) fields show_all,
     Forall2 (λ (org : pydict) items, org !! "casts" = Some (PList items))
       orgs castss →
     let req := query_request (get_casts_query fields show_all) kwargs in
     get_data_orgs "casts" (PDict res) = Ok (PList (concat castss))
     ∧ (transport tr req = Ok (PDict res) → bare res →
        run (get_casts fields show_all kwargs) tr =
        (tr ++ [req], Ok (PList (concat castss))))
     ∧ (∀ (env : pydict) (h : pyval),
        transport tr req = Ok (PDict env) →
        env !! "response" = Some (PDict res) → env !! "headers" = Some h →
        run (get_casts fields show_all kwargs) tr =
        (tr ++ [req],
         Ok (PDict {[ "response" := PList (concat castss); "headers" := h ]}))))
  ∧ (∀ (weldss : list (list pyval)),
     Forall2 (λ (org : pydict) items, org !! "welds" = Some (PList items))
       orgs weldss →
     let req := query_request welds_query kwargs in
     get_data_orgs "welds" (PDict res) = Ok (PList (concat weldss))
     ∧ (transport tr req = Ok (PDict res) → bare res →
        run (get_welds kwargs) tr =
        (tr ++ [req], Ok (PList (concat weldss))))
     ∧ (∀ (env : pydict) (h : pyval),
        transport tr req = Ok (PDict env) →
        env !! "response" = Some (PDict res) → env !! "headers" = Some h →
        run (get_welds kwargs) tr =
        (tr ++ [req],
         Ok (PDict {[ "response" := PList (concat weldss); "headers" := h ]})))).
Proof.
  intros Hd Hu Ho Hc. split.
  - intros castss fields show_all Hall req.
    pose proof (get_data_orgs_lists "casts" res data user orgs castss
                  Hd Hu Ho Hall) as Hdata.
    split; [exact Hdata|]. split.
    + intros Ht Hbare.
      by apply (query_unwrap_bare _ (get_data_orgs "casts") kwargs tr res).
    + intros env h Ht Hr Hh.
      by apply (query_unwrap_envelope _ (get_data_orgs "casts") kwargs tr env
                  (PDict res) h).
  - intros weldss Hall req.
    pose proof (get_data_orgs_lists "welds" res data user orgs weldss
                  Hd Hu Ho Hall) as Hdata.
    split; [exact Hdata|]. split.
    + intros Ht Hbare.
      by apply (query_unwrap_bare _ (get_data_orgs "welds") kwargs tr res).
    + intros env h Ht Hr Hh.
      by apply (query_unwrap_envelope _ (get_data_orgs "welds") kwargs tr env
                  (PDict res) h).
Qed.

(** ** Further properties of the facade *)

(** *** One call per operation *)

Lemma single_call_raise (e : exn) : single_call (mthrow e).
Proof. intros tr. left. by exists e. Qed.

Lemma single_call_send (req : request Files) : single_call (send req).
Proof. intros tr. right. by exists req, (transport tr req). Qed.

(** Pure steps before an operation that makes at most one call. *)
Lemma single_call_lift {A : Type} (r : result A) (k : A → io Files pyval) :
  (∀ a, single_call (k a)) → single_call (a ← lift r; k a).
Proof.
  intros Hk tr. destruct r as [a|e].
  - apply (Hk a tr).
  - left. by exists e.
Qed.

(** A pure step after an operation that makes at most one call. *)
Lemma single_call_then_lift (op : io Files pyval) (f : pyval → result pyval) :
  single_call op → single_call (res ← op; lift (f res)).
Proof.
  intros Hop tr. destruct (Hop tr) as [[e He]|(req & r & Hr)].
  - left. exists e. io_unfold. by rewrite He.
  - right. io_unfold. rewrite Hr. destruct r as [a|e]; eauto.
Qed.

Lemma single_call_if (b : bool) (op1 op2 : io Files pyval) :
  single_call op1 → single_call op2 → single_call (if b then op1 else op2).
Proof. by destruct b. Qed.

Lemma single_call_query_kwargs (text : string) (kwargs : pydict) :
  single_call (query_kwargs text kwargs).
Proof.
  unfold query_kwargs.
  apply single_call_if; [apply single_call_raise|apply single_call_send].
Qed.

(** Every operation of the facade makes at most one call on its
    collaborators, whatever its arguments: it raises before calling, or it
    adds exactly one call to those made before, which it leaves as they
    were. *)
Theorem operations_single_call (kwargs : pydict) :
  (∀ template_id payload, single_call (fill_pdf template_id payload kwargs))
  ∧ (∀ payload, single_call (generate_pdf payload kwargs))
  ∧ (∀ eid fields version_number cast_args,
       single_call (get_cast eid fields version_number cast_args kwargs))
  ∧ (∀ fields show_all, single_call (get_casts fields show_all kwargs))
  ∧ single_call (get_current_user kwargs)
  ∧ single_call (get_welds kwargs)
  ∧ (∀ eid, single_call (get_weld eid kwargs))
  ∧ (∀ payload json, single_call (create_etch_packet payload json kwargs))
  ∧ (∀ signer_eid client_user_id,
       single_call (generate_etch_signing_url signer_eid client_user_id kwargs))
  ∧ (∀ payload json, single_call (forge_submit payload json kwargs)).
Proof.
  repeat apply conj.
  - intros template_id payload. unfold fill_pdf.
    apply single_call_lift. intros data. cbv zeta.
    apply single_call_if; [apply single_call_raise|apply single_call_send].
  - intros payload. unfold generate_pdf.
    apply single_call_if; [apply single_call_raise|].
    apply single_call_lift. intros data.
    apply single_call_if; [apply single_call_raise|apply single_call_send].
  - intros eid fields version_number cast_args.
    apply single_call_then_lift, single_call_query_kwargs.
  - intros fields show_all.
    apply single_call_then_lift, single_call_query_kwargs.
  - apply single_call_then_lift, single_call_query_kwargs.
  - apply single_call_then_lift, single_call_query_kwargs.
  - intros eid. apply single_call_then_lift.
    apply single_call_if; [apply single_call_raise|apply single_call_send].
  - intros payload json. unfold create_etch_packet.
    apply single_call_if; [apply single_call_raise|].
    apply single_call_lift. intros payload'.
    apply single_call_lift. intros mutation.
    apply single_call_lift. intros files.
    apply single_call_if; [apply single_call_raise|apply single_call_send].
  - intros signer_eid client_user_id. unfold generate_etch_signing_url.
    apply single_call_lift. intros mutation.
    apply single_call_lift. intros payload.
    apply single_call_if; [apply single_call_raise|apply single_call_send].
  - intros payload json. unfold forge_submit.
    apply single_call_if; [apply single_call_raise|].
    apply single_call_lift. intros payload'.
    apply single_call_lift. intros mutation.
    apply single_call_lift. intros created.
    apply single_call_if; [apply single_call_raise|apply single_call_send].
Qed.

(** *** The keyword arguments of [fill_pdf] *)

Lemma trace_unchanged_not_extended {A : Type} (tr : list A) (x : A) :
  tr ≠ tr ++ [x].
Proof.
  intros H. apply (f_equal length) in H. rewrite length_app in H.
  simpl in H. lia.
Qed.

(** Whatever the payload, a POST [fill_pdf] makes goes to
    [fill/{template_id}.pdf]; [version_number] is never among its keyword
    arguments; a truthy [version_number], of any type, is sent as
    [params={"versionNumber": version_number}], in place of any [params]
    of the caller; without one the caller's [params] stays; every other
    keyword argument is passed on as given. *)
Theorem fill_pdf_keywords (template_id : string)
    (payload : argument FillPDFPayload) (kwargs : pydict)
    (tr : list (request Files)) (req : request Files) (r : result pyval) :
  run (fill_pdf template_id payload kwargs) tr = (tr ++ [req], r) →
  ∃ body kwargs',
    req = RestPost ("fill/" +:+ template_id +:+ ".pdf") body kwargs'
    ∧ r = transport tr req
    ∧ kwargs' !! "version_number" = None
    ∧ (∀ k, k ≠ "version_number" → k ≠ "params" → kwargs' !! k = kwargs !! k)
    ∧ (∀ v, kwargs !! "version_number" = Some v → py_truthy v = true →
         kwargs' !! "params" = Some (PDict {[ "versionNumber" := v ]}))
    ∧ (py_truthy (default PNone (kwargs !! "version_number")) = false →
         kwargs' !! "params" = kwargs !! "params").
Proof.
  unfold fill_pdf. unfold mbind, io_bind, lift. cbn [run].
  destruct (except_KeyError _) as [data|e].
  2:{ intros [= Htr _]. by apply trace_unchanged_not_extended in Htr. }
  cbv zeta. rewrite collides_rest_after.
  destruct (collides rest_post_parameters kwargs).
  { unfold mthrow, io_throw. cbn [run].
    intros [= Htr _]. by apply trace_unchanged_not_extended in Htr. }
  unfold send. cbn [run].
  intros [= Htr Hr]. apply app_inv_head in Htr. injection Htr as <-.
  eexists _, _. split; [reflexivity|]. split; [done|].
  destruct (py_truthy (default PNone (kwargs !! "version_number"))) eqn:Hv.
  - split; [|split; [|split]].
    + rewrite lookup_insert_ne by done. apply lookup_delete_eq.
    + intros k Hk1 Hk2.
      rewrite lookup_insert_ne by done. by rewrite lookup_delete_ne.
    + intros v Hlook _. rewrite lookup_insert_eq. by rewrite Hlook.
    + discriminate.
  - split; [|split; [|split]].
    + apply lookup_delete_eq.
    + intros k Hk1 Hk2. by rewrite lookup_delete_ne.
    + intros v Hlook Htruthy. rewrite Hlook in Hv. simpl in Hv. congruence.
    + intros _. by rewrite lookup_delete_ne.
Qed.

(** *** Errors of the payload construction *)

(** [fill_pdf] turns a [KeyError] of the payload construction into its own
    [ValueError] and lets every other error through unchanged;
    [generate_pdf] has no such handler and lets all of them through, the
    [KeyError] included.  No call is made in any of these cases. *)
Theorem construction_errors (d : pydict) (kwargs : pydict)
    (tr : list (request Files)) :
  (∀ template_id k,
     model_init FillPDFPayload d = Raise (KeyError k) →
     raises_offline (fill_pdf template_id (Value (PDict d)) kwargs) tr
       (ValueError msg_validation_failed))
  ∧ (∀ template_id e,
     model_init FillPDFPayload d = Raise e → (∀ k, e ≠ KeyError k) →
     raises_offline (fill_pdf template_id (Value (PDict d)) kwargs) tr e)
  ∧ (∀ e,
     d ≠ ∅ → model_init GeneratePDFPayload d = Raise e →
     raises_offline (generate_pdf (Value (PDict d)) kwargs) tr e).
Proof.
  split; [|split].
  - intros template_id k H. unfold raises_offline, fill_pdf. io_unfold.
    by rewrite H.
  - intros template_id e H Hne. unfold raises_offline, fill_pdf. io_unfold.
    rewrite H. destruct e; try reflexivity. by destruct (Hne key).
  - intros e Hd H. unfold raises_offline, generate_pdf. unfold truthy.
    rewrite (truthy_dict d Hd). io_unfold. by rewrite H.
Qed.

(** *** [forge_submit] and [create_etch_packet] by kind of payload *)

(** [forge_submit] raises its type error when [json] and [payload] are
    both falsy, and its value error when [json] is falsy and [payload] is
    a truthy value that is neither a dict nor a typed payload (a string, a
    list, an object of another class such as the mutation itself); no call
    is made in either case. *)
Theorem forge_submit_errors (payload : argument ForgeSubmitPayload)
    (json : option string) (kwargs : pydict) (tr : list (request Files)) :
  json_truthy json = false →
  (truthy payload = false →
     raises_offline (forge_submit payload json kwargs) tr
       (TypeError msg_json_or_payload))
  ∧ (truthy payload = true → is_forge_form payload = false →
     raises_offline (forge_submit payload json kwargs) tr
       (ValueError msg_forge_payload)).
Proof.
  intros Hj. split.
  - intros Hp. unfold raises_offline, forge_submit. by rewrite Hp, Hj.
  - intros Hp Hform. unfold raises_offline, forge_submit.
    rewrite Hp, Hj. simpl negb. cbv iota.
    destruct json as [s|];
      (destruct payload as [v|p|b]; [destruct v| |]; try discriminate;
       reflexivity).
Qed.

(** Without [json], [create_etch_packet] builds the mutation from a
    non-empty dict with [create_from_dict], from a typed payload with the
    constructor of the mutation, and takes a typed mutation as it is; when
    that gives the mutation [m], it posts the multipart files of [m] in one
    call and returns the answer unchanged. *)
Theorem create_etch_packet_by_kind (m : CreateEtchPacket) (files : Files)
    (json : option string) (kwargs : pydict) (tr : list (request Files)) :
  json_truthy json = false →
  get_multipart_payload m = Ok files →
  collides ["self"; "files"] kwargs = false →
  let req := GraphqlPostMultipart files kwargs in
  (∀ d, d ≠ ∅ → create_from_dict CreateEtchPacket d = Ok m →
     run (create_etch_packet (Value (PDict d)) json kwargs) tr =
     (tr ++ [req], transport tr req))
  ∧ (∀ p, of_payload CreateEtchPacket p = Ok m →
     run (create_etch_packet (Instance (inl p)) json kwargs) tr =
     (tr ++ [req], transport tr req))
  ∧ run (create_etch_packet (Instance (inr m)) json kwargs) tr =
     (tr ++ [req], transport tr req).
Proof.
  intros Hj Hfiles Hc req.
  assert (∀ payload : argument (CreateEtchPacketPayload + CreateEtchPacket),
    match json with
    | Some s =>
        if json_truthy json
        then p ← parse_raw json_loads CreateEtchPacketPayload s;
             Ok (Instance (inl p))
        else Ok payload
    | None => Ok payload
    end = Ok payload) as Hkeep.
  { intros payload. destruct json; [by rewrite Hj|done]. }
  split; [|split].
  - intros d Hd Hm. unfold create_etch_packet. unfold truthy.
    rewrite (truthy_dict d Hd). simpl negb. cbv iota.
    rewrite Hkeep. io_unfold. rewrite Hm, Hfiles. simpl in Hc |- *.
    by rewrite Hc.
  - intros p Hm. unfold create_etch_packet. simpl negb. cbv iota.
    rewrite Hkeep. io_unfold. rewrite Hm, Hfiles. simpl in Hc |- *.
    by rewrite Hc.
  - unfold create_etch_packet. simpl negb. cbv iota.
    rewrite Hkeep. io_unfold. rewrite Hfiles. simpl in Hc |- *.
    by rewrite Hc.
Qed.

(** Without [json], [forge_submit] builds the mutation from a non-empty
    dict with [create_from_dict] and from a typed payload with the
    constructor of the mutation; when that gives the mutation [m], it
    posts the text of [m] with the serialized payload of [m] as variables,
    in one call, and returns the answer unchanged. *)
Theorem forge_submit_by_kind (m : ForgeSubmit) (created : ForgeSubmitPayload)
    (json : option string) (kwargs : pydict) (tr : list (request Files)) :
  json_truthy json = false →
  create_payload ForgeSubmit m = Ok created →
  collides ["self"; "query"; "variables"] kwargs = false →
  let req := GraphqlPost (get_mutation ForgeSubmit m)
               (PDict (to_dict ForgeSubmitPayload created)) kwargs in
  (∀ d, d ≠ ∅ → create_from_dict ForgeSubmit d = Ok m →
     run (forge_submit (Value (PDict d)) json kwargs) tr =
     (tr ++ [req], transport tr req))
  ∧ (∀ p, of_payload ForgeSubmit p = Ok m →
     run (forge_submit (Instance p) json kwargs) tr =
     (tr ++ [req], transport tr req)).
Proof.
  intros Hj Hcreated Hc req.
  assert (∀ payload : argument ForgeSubmitPayload,
    match json with
    | Some s =>
        if json_truthy json
        then p ← parse_raw json_loads ForgeSubmitPayload s; Ok (Instance p)
        else Ok payload
    | None => Ok payload
    end = Ok payload) as Hkeep.
  { intros payload. destruct json; [by rewrite Hj|done]. }
  split.
  - intros d Hd Hm. unfold forge_submit. unfold truthy.
    rewrite (truthy_dict d Hd), orb_true_r. simpl negb. cbv iota.
    rewrite Hkeep. io_unfold. rewrite Hm, Hcreated. simpl in Hc |- *.
    by rewrite Hc.
  - intros p Hm. unfold forge_submit. unfold truthy.
    rewrite orb_true_r. simpl negb. cbv iota.
    rewrite Hkeep. io_unfold. rewrite Hm, Hcreated. simpl in Hc |- *.
    by rewrite Hc.
Qed.

(** *** [get_weld] and [get_current_user] *)

Lemma get_data_weld_extracts (res data : pydict) (w : pyval) :
  res !! "data" = Some (PDict data) → data !! "weld" = Some w →
  get_data_weld (PDict res) = Ok w.
Proof.
  intros Hd Hw. unfold get_data_weld. cbn [py_getitem]. rewrite Hd.
  cbn [mbind result_bind py_getitem]. by rewrite Hw.
Qed.

Lemma get_data_current_user_extracts (res data : pydict) (u : pyval) :
  res !! "data" = Some (PDict data) → data !! "currentUser" = Some u →
  get_data_current_user (PDict res) = Ok u.
Proof.
  intros Hd Hu. unfold get_data_current_user. cbn [py_getitem]. rewrite Hd.
  cbn [mbind result_bind py_getitem]. by rewrite Hu.
Qed.

(** [get_weld(eid)] posts its fixed query with the variables
    [{"eid": eid}] and the keyword arguments as given, and returns the
    [weld] field of the data, alone or inside the envelope with the
    headers; a [variables] keyword, which the other queries accept, is
    refused here with a type error before any call. *)
Theorem get_weld_request (eid : string) (kwargs : pydict)
    (tr : list (request Files)) :
  let req := GraphqlPost weld_query (PDict {[ "eid" := PStr eid ]}) kwargs in
  (is_Some (kwargs !! "variables") →
     raises_offline (get_weld eid kwargs) tr (TypeError msg_multiple_values))
  ∧ (collides ["self"; "query"; "variables"] kwargs = false →
     run (get_weld eid kwargs) tr =
     (tr ++ [req], res ← transport tr req; _get_return res get_data_weld))
  ∧ (∀ (res data : pydict) (w : pyval),
     collides ["self"; "query"; "variables"] kwargs = false →
     transport tr req = Ok (PDict res) → bare res →
     res !! "data" = Some (PDict data) → data !! "weld" = Some w →
     run (get_weld eid kwargs) tr = (tr ++ [req], Ok w))
  ∧ (∀ (env res data : pydict) (h w : pyval),
     collides ["self"; "query"; "variables"] kwargs = false →
     transport tr req = Ok (PDict env) →
     env !! "response" = Some (PDict res) → env !! "headers" = Some h →
     res !! "data" = Some (PDict data) → data !! "weld" = Some w →
     run (get_weld eid kwargs) tr =
     (tr ++ [req], Ok (PDict {[ "response" := w; "headers" := h ]}))).
Proof.
  intros req.
  assert (collides ["self"; "query"; "variables"] kwargs = false →
    run (get_weld eid kwargs) tr =
    (tr ++ [req], res ← transport tr req; _get_return res get_data_weld)) as Hrun.
  { intros Hc. unfold get_weld. rewrite Hc. io_unfold.
    by destruct (transport tr _). }
  split; [|split; [exact Hrun|split]].
  - intros Hvar. unfold raises_offline, get_weld.
    assert (collides ["self"; "query"; "variables"] kwargs = true) as ->.
    { unfold collides. simpl. rewrite (bool_decide_eq_true_2 _ Hvar).
      by rewrite !orb_true_r. }
    reflexivity.
  - intros res data w Hc Ht Hbare Hd Hw. rewrite (Hrun Hc), Ht. io_unfold.
    by rewrite (get_return_bare res _ Hbare),
      (get_data_weld_extracts res data w Hd Hw).
  - intros env res data h w Hc Ht Hr Hh Hd Hw. rewrite (Hrun Hc), Ht. io_unfold.
    by rewrite (get_return_envelope env _ _ h Hr Hh),
      (get_data_weld_extracts res data w Hd Hw).
Qed.

(** [get_current_user()] posts its fixed query and returns the
    [currentUser] field of the data, alone or inside the envelope with the
    headers; a [variables] keyword becomes the variables of the post. *)
Theorem get_current_user_request (kwargs : pydict) (tr : list (request Files)) :
  collides ["self"; "query"] kwargs = false →
  let req := GraphqlPost current_user_query
               (default PNone (kwargs !! "variables"))
               (delete "variables" kwargs) in
  run (get_current_user kwargs) tr =
    (tr ++ [req], res ← transport tr req; _get_return res get_data_current_user)
  ∧ (∀ (res data : pydict) (u : pyval),
     transport tr req = Ok (PDict res) → bare res →
     res !! "data" = Some (PDict data) → data !! "currentUser" = Some u →
     run (get_current_user kwargs) tr = (tr ++ [req], Ok u))
  ∧ (∀ (env res data : pydict) (h u : pyval),
     transport tr req = Ok (PDict env) →
     env !! "response" = Some (PDict res) → env !! "headers" = Some h →
     res !! "data" = Some (PDict data) → data !! "currentUser" = Some u →
     run (get_current_user kwargs) tr =
     (tr ++ [req], Ok (PDict {[ "response" := u; "headers" := h ]}))).
Proof.
  intros Hc req. split; [|split].
  - unfold get_current_user. by rewrite query_unwrap_run, Hc.
  - intros res data u Ht Hbare Hd Hu.
    apply (query_unwrap_bare _ get_data_current_user kwargs tr res u); try done.
    by apply (get_data_current_user_extracts res data).
  - intros env res data h u Ht Hr Hh Hd Hu.
    apply (query_unwrap_envelope _ get_data_current_user kwargs tr env
             (PDict res) h u); try done.
    by apply (get_data_current_user_extracts res data).
Qed.

(** *** Answers without data *)



(** *** Organizations without the field *)

Lemma flatten_orgs_app (key : string) (orgs1 : list pydict)
    (itemss : list (list pyval)) (rest : list pyval) :
  Forall2 (λ (org : pydict) items, org !! key = Some (PList items)) orgs1 itemss →
  flatten_orgs key ((PDict <$> orgs1) ++ rest) =
  (items ← flatten_orgs key rest; Ok (concat itemss ++ items)).
Proof.
  induction 1 as [|org items orgs1 itemss Horg _ IH].
  - simpl. by destruct (flatten_orgs key rest).
  - rewrite fmap_cons. change ((PDict org :: (PDict <$> orgs1)) ++ rest)
      with (PDict org :: ((PDict <$> orgs1) ++ rest)).
    cbn [flatten_orgs py_getitem]. rewrite Horg.
    cbn [mbind result_bind py_iter]. rewrite IH.
    destruct (flatten_orgs key rest) as [l|e]; simpl; [|done].
    by rewrite app_assoc.
Qed.

(** The comprehension of [get_casts] and [get_welds] is all or nothing:
    when one organization has no [casts] ([welds]) key the operation raises
    [KeyError] for that key, and when the field is [None] it raises a type
    error, even though the organizations before it had their lists; the
    items already gathered are not returned. *)
Theorem organizations_all_or_nothing (key : string) (res data user : pydict)
    (orgs1 : list pydict) (itemss : list (list pyval)) (org : pydict)
    (orgs2 : list pyval) :
  res !! "data" = Some (PDict data) →
  data !! "currentUser" = Some (PDict user) →
  user !! "organizations" =
    Some (PList ((PDict <$> orgs1) ++ PDict org :: orgs2)) →
  Forall2 (λ (o : pydict) items, o !! key = Some (PList items)) orgs1 itemss →
  (org !! key = None → get_data_orgs key (PDict res) = Raise (KeyError key))
  ∧ (org !! key = Some PNone →
     get_data_orgs key (PDict res) = Raise (TypeError "object is not iterable")).
Proof.
  intros Hd Hu Ho Hall.
  assert (∀ e,
    (inner ← py_getitem (PDict org) key; py_iter inner) = Raise e →
    get_data_orgs key (PDict res) = Raise e) as Hfail.
  { intros e He. unfold get_data_orgs. cbn [py_getitem].
    rewrite Hd. cbn [mbind result_bind py_getitem].
    rewrite Hu. cbn [mbind result_bind py_getitem].
    rewrite Ho. cbn [mbind result_bind py_iter].
    rewrite (flatten_orgs_app key orgs1 itemss _ Hall).
    cbn [flatten_orgs].
    destruct (py_getitem (PDict org) key) as [inner|e0]; simpl in He |- *.
    - by rewrite He.
    - by injection He as ->. }
  split; intros Hk; apply Hfail; cbn [py_getitem]; by rewrite Hk.
Qed.

(** *** Answers that are not dicts *)

(** [_get_return] on an answer that is not a dict: for [None], a [bool] or
    an [int] the membership test raises a type error and [get_data] is not
    used; a list is given to [get_data] whole unless it holds both the
    strings ["response"] and ["headers"], in which case indexing it raises
    a type error. *)
Theorem get_return_not_a_dict (get_data : pyval → result pyval) :
  (∀ res, res = PNone ∨ (∃ b, res = PBool b) ∨ (∃ z, res = PInt z) →
     _get_return res get_data = Raise (TypeError "argument is not iterable"))
  ∧ (∀ l, existsb (is_str "response") l = false
          ∨ existsb (is_str "headers") l = false →
     _get_return (PList l) get_data = get_data (PList l))
  ∧ (∀ l, existsb (is_str "response") l = true →
          existsb (is_str "headers") l = true →
     _get_return (PList l) get_data =
     Raise (TypeError "indices must be integers")).
Proof.
  split; [|split].
  - intros res [->|[[b ->]|[z ->]]]; reflexivity.
  - intros l H. unfold _get_return. cbn [py_contains mbind result_bind].
    destruct (existsb (is_str "response") l); [|done].
    destruct H as [H|H]; [discriminate|].
    cbn [py_contains mbind result_bind]. by rewrite H.
  - intros l H1 H2. unfold _get_return. cbn [py_contains mbind result_bind].
    rewrite H1. cbn [py_contains mbind result_bind]. by rewrite H2.
Qed.

(** *** The caller's list of arguments *)

Lemma is_substring_join_adjacent (sep a b : string) (l : list string) :
  is_substring (a +:+ sep +:+ b) (join sep (l ++ [a; b])) = true.
Proof.
  unfold join. induction l as [|x l IH].
  - apply is_substring_refl.
  - destruct l as [|y l].
    + change (String.concat sep ([x] ++ [a; b]))
        with (x +:+ sep +:+ (a +:+ sep +:+ b)).
      apply is_substring_app_r, is_substring_app_r, is_substring_refl.
    + change (String.concat sep ((x :: y :: l) ++ [a; b]))
        with (x +:+ sep +:+ String.concat sep ((y :: l) ++ [a; b])).
      by apply is_substring_app_r, is_substring_app_r.
Qed.

(** [get_cast] appends to the list the caller passes as [cast_args] when
    it is not empty: after a call for [eid1] the list ends with the pair
    of [eid1], and a second call with the same list, for [eid2], posts a
    query whose arguments hold both eids, [eid1] before [eid2].  An empty
    list is left empty. *)
Theorem cast_args_extended_in_place (eid1 eid2 : string)
    (fields : option (list string)) (cast_args : list (string * string)) :
  cast_args ≠ [] →
  let after := cast_args_after eid1 None cast_args in
  after = cast_args ++ [("eid", quoted eid1)]
  ∧ get_cast_args eid2 None (Some after) =
    cast_args ++ [("eid", quoted eid1); ("eid", quoted eid2)]
  ∧ is_substring ("eid:" +:+ quoted eid1 +:+ ",eid:" +:+ quoted eid2)
      (get_cast_query eid2 fields None (Some after)) = true
  ∧ cast_args_after eid1 None [] = [].
Proof.
  intros Hne after.
  assert (after = cast_args ++ [("eid", quoted eid1)]) as Hafter.
  { unfold after, cast_args_after. by destruct cast_args. }
  assert (get_cast_args eid2 None (Some after) =
          cast_args ++ [("eid", quoted eid1); ("eid", quoted eid2)]) as Hargs.
  { unfold get_cast_args. simpl. rewrite Hafter. by rewrite <- app_assoc. }
  split; [exact Hafter|]. split; [exact Hargs|]. split; [|reflexivity].
  unfold get_cast_query.
  rewrite (get_cast_arg_str_args eid2 None (Some after)), Hargs, cast_query_parts.
  apply is_substring_app_r, is_substring_app_l, is_substring_app_r,
    is_substring_app_l.
  unfold joined_args. rewrite fmap_app.
  change ((λ arg : string * string, join ":" [arg.1; arg.2]) <$>
            [("eid", quoted eid1); ("eid", quoted eid2)])
    with ["eid:" +:+ quoted eid1; "eid:" +:+ quoted eid2].
  change ("eid:" +:+ quoted eid1 +:+ ",eid:" +:+ quoted eid2)
    with ("eid:" +:+ (quoted eid1 +:+ "," +:+ "eid:" +:+ quoted eid2)).
  pose proof (is_substring_join_adjacent ","
    ("eid:" +:+ quoted eid1) ("eid:" +:+ quoted eid2)
    ((λ arg : string * string, join ":" [arg.1; arg.2]) <$> cast_args)) as H.
  revert H.
  assert (("eid:" +:+ quoted eid1) +:+ "," +:+ "eid:" +:+ quoted eid2 =
          "eid:" +:+ (quoted eid1 +:+ "," +:+ "eid:" +:+ quoted eid2)) as ->;
    [reflexivity|done].
Qed.

(** *** Keyword arguments of the mutations *)

(** [generate_etch_signing_url] builds the mutation from the two ids and
    posts its text with the payload's [dict(by_alias=True)] as variables,
    in one call, returning the answer unchanged; a keyword argument named
    [query] or [variables] is a type error, raised after the mutation has
    been built and before any call. *)
Theorem generate_etch_signing_url_request (signer_eid client_user_id : string)
    (m : GenerateEtchSigningURL) (p : GenerateEtchSigningURLPayload)
    (kwargs : pydict) (tr : list (request Files)) :
  signing_url_init signer_eid client_user_id = Ok m →
  create_payload GenerateEtchSigningURL m = Ok p →
  let req := GraphqlPost (get_mutation GenerateEtchSigningURL m)
               (PDict (dict_by_alias p)) kwargs in
  (collides ["self"; "query"; "variables"] kwargs = false →
     run (generate_etch_signing_url signer_eid client_user_id kwargs) tr =
     (tr ++ [req], transport tr req))
  ∧ (collides ["self"; "query"; "variables"] kwargs = true →
     raises_offline (generate_etch_signing_url signer_eid client_user_id kwargs)
       tr (TypeError msg_multiple_values)).
Proof.
  intros Hm Hp req. unfold raises_offline, generate_etch_signing_url.
  io_unfold. rewrite Hm, Hp.
  split; intros Hc; simpl in Hc |- *; by rewrite Hc.
Qed.

(** A keyword argument that names a parameter of [mutate_multipart]
    ([files]) or of [mutate] ([query], [variables]) makes
    [create_etch_packet] or [forge_submit] raise a type error without a
    call, once the payload has got through: an error of the payload comes
    first. *)
Theorem mutation_keyword_collisions (json : option string) (kwargs : pydict)
    (tr : list (request Files)) :
  json_truthy json = false →
  (∀ (m : CreateEtchPacket) (files : Files),
     get_multipart_payload m = Ok files →
     collides ["self"; "files"] kwargs = true →
     raises_offline (create_etch_packet (Instance (inr m)) json kwargs) tr
       (TypeError msg_multiple_values))
  ∧ (∀ (m : CreateEtchPacket) (e : exn),
     get_multipart_payload m = Raise e →
     raises_offline (create_etch_packet (Instance (inr m)) json kwargs) tr e)
  ∧ (∀ (p : ForgeSubmitPayload) (m : ForgeSubmit) (created : ForgeSubmitPayload),
     of_payload ForgeSubmit p = Ok m →
     create_payload ForgeSubmit m = Ok created →
     collides ["self"; "query"; "variables"] kwargs = true →
     raises_offline (forge_submit (Instance p) json kwargs) tr
       (TypeError msg_multiple_values))
  ∧ (∀ (p : ForgeSubmitPayload) (e : exn),
     of_payload ForgeSubmit p = Raise e →
     raises_offline (forge_submit (Instance p) json kwargs) tr e).
Proof.
  intros Hj.
  assert (∀ payload : argument (CreateEtchPacketPayload + CreateEtchPacket),
    match json with
    | Some s =>
        if json_truthy json
        then p ← parse_raw json_loads CreateEtchPacketPayload s;
             Ok (Instance (inl p))
        else Ok payload
    | None => Ok payload
    end = Ok payload) as Hetch.
  { intros payload. destruct json; [by rewrite Hj|done]. }
  assert (∀ payload : argument ForgeSubmitPayload,
    match json with
    | Some s =>
        if json_truthy json
        then p ← parse_raw json_loads ForgeSubmitPayload s; Ok (Instance p)
        else Ok payload
    | None => Ok payload
    end = Ok payload) as Hforge.
  { intros payload. destruct json; [by rewrite Hj|done]. }
  split; [|split; [|split]].
  - intros m files Hfiles Hc. unfold raises_offline, create_etch_packet.
    simpl negb. cbv iota. rewrite Hetch. io_unfold. rewrite Hfiles.
    simpl in Hc |- *. by rewrite Hc.
  - intros m e Hfiles. unfold raises_offline, create_etch_packet.
    simpl negb. cbv iota. rewrite Hetch. io_unfold. by rewrite Hfiles.
  - intros p m created Hm Hcreated Hc. unfold raises_offline, forge_submit.
    unfold truthy. rewrite orb_true_r. simpl negb. cbv iota.
    rewrite Hforge. io_unfold. rewrite Hm, Hcreated.
    simpl in Hc |- *. by rewrite Hc.
  - intros p e Hm. unfold raises_offline, forge_submit.
    unfold truthy. rewrite orb_true_r. simpl negb. cbv iota.
    rewrite Hforge. io_unfold. by rewrite Hm.
Qed.

(** *** [generate_pdf] beside [fill_pdf] *)

(** Whatever the payload, a POST [generate_pdf] makes goes to
    [generate-pdf] with the keyword arguments exactly as given: it reads
    no [version_number] and adds no [params]. *)
Theorem generate_pdf_keywords (payload : argument GeneratePDFPayload)
    (kwargs : pydict) (tr : list (request Files)) (req : request Files)
    (r : result pyval) :
  run (generate_pdf payload kwargs) tr = (tr ++ [req], r) →
  ∃ body, req = RestPost "generate-pdf" body kwargs ∧ r = transport tr req.
Proof.
  unfold generate_pdf. destruct (negb (truthy payload)).
  { intros [= Htr _]. by apply trace_unchanged_not_extended in Htr. }
  unfold mbind, io_bind, lift. cbn [run].
  destruct (match payload with
            | Value (PDict d) => model_init GeneratePDFPayload d
            | Value (PStr s) => parse_raw json_loads GeneratePDFPayload s
            | Instance i => Ok i
            | _ => Raise (ValueError msg_json_or_dict)
            end) as [data|e].
  2:{ intros [= Htr _]. by apply trace_unchanged_not_extended in Htr. }
  destruct (collides rest_post_parameters kwargs).
  { unfold mthrow, io_throw. cbn [run].
    intros [= Htr _]. by apply trace_unchanged_not_extended in Htr. }
  unfold send. cbn [run].
  intros [= Htr Hr]. apply app_inv_head in Htr. injection Htr as <-.
  by eexists.
Qed.

(** Only [generate_pdf] has the emptiness guard: an empty mapping that the
    payload type accepts is sent by [fill_pdf] (when no keyword argument
    names a parameter of the POST), while [generate_pdf] refuses the empty
    mapping before the payload type sees it. *)
Theorem empty_mapping_guard (template_id : string) (i : FillPDFPayload)
    (kwargs : pydict) (tr : list (request Files)) :
  model_init FillPDFPayload ∅ = Ok i →
  collides rest_post_parameters kwargs = false →
  posts_once (fill_pdf template_id (Value (PDict ∅)) kwargs) tr
    ("fill/" +:+ template_id +:+ ".pdf") (to_dict FillPDFPayload i)
  ∧ raises_offline (generate_pdf (Value (PDict ∅)) kwargs) tr
      (ValueError msg_json_or_dict).
Proof.
  intros Hi Hc. split.
  - unfold posts_once. rewrite (fill_pdf_dict template_id ∅ i kwargs tr Hi).
    by apply fill_pdf_posts.
  - reflexivity.
Qed.

(** *** Keyword arguments that name a parameter of the POST *)

(** A keyword argument named [url] or [data] makes [fill_pdf] and
    [generate_pdf] raise a type error without a call, once the payload has
    got through: the URL and the body are already given to
    [RestRequest.post]. *)
Theorem rest_keyword_collisions (kwargs : pydict) (tr : list (request Files)) :
  is_Some (kwargs !! "url") ∨ is_Some (kwargs !! "data") →
  (∀ template_id (i : FillPDFPayload),
     raises_offline (fill_pdf template_id (Instance i) kwargs) tr
       (TypeError msg_multiple_values))
  ∧ (∀ i : GeneratePDFPayload,
     raises_offline (generate_pdf (Instance i) kwargs) tr
       (TypeError msg_multiple_values)).
Proof.
  intros Hkey.
  assert (collides rest_post_parameters kwargs = true) as Hc.
  { unfold collides, rest_post_parameters. cbn [existsb].
    destruct Hkey as [Hkey|Hkey]; rewrite (bool_decide_eq_true_2 _ Hkey);
      by rewrite ?orb_true_r. }
  split.
  - intros template_id i. unfold raises_offline.
    pose proof (fill_pdf_instance_run template_id i kwargs tr) as Hrun.
    cbv zeta in Hrun. by rewrite Hc in Hrun.
  - intros i. unfold raises_offline, generate_pdf. cbn [truthy negb].
    unfold mbind, io_bind, lift. cbn [run]. by rewrite Hc.
Qed.

End Anvil.

(** ** The properties at the concrete collaborators *)

Lemma get_return_unwraps_witness :
  _get_return (PDict Demo.graphql_envelope) get_data_cast =
    Ok (PDict {[ "response" := Demo.cast_1; "headers" := Demo.headers ]})
  ∧ _get_return (PDict Demo.graphql_answer) get_data_cast = Ok Demo.cast_1.
Proof.
  split.
  - apply (proj1 (get_return_unwraps Demo.graphql_envelope get_data_cast)
             (PDict Demo.graphql_answer) Demo.headers); reflexivity.
  - apply (proj2 (get_return_unwraps Demo.graphql_answer get_data_cast)).
    left. reflexivity.
Defined.


Lemma fill_pdf_outcomes_witness :
  let fill := fill_pdf Demo.json_loads Demo.transport Demo.payload_type "T" in
  (∃ e, is_value_error e = true ∧
        raises_offline (fill (Value (PDict Demo.title_only)) ∅) [] e)
  ∧ (∃ e, is_value_error e = true ∧
        raises_offline (fill (Value (PStr Demo.title_only_json)) ∅) [] e)
  ∧ raises_offline (fill (Value (PInt 5)) ∅) [] (ValueError msg_json_or_dict)
  ∧ posts_once Demo.transport (fill (Value (PStr Demo.data_1_json)) ∅) []
      "fill/T.pdf" Demo.data_1.
Proof.
  pose proof (fill_pdf_outcomes Demo.json_loads Demo.transport
                Demo.payload_type "T" ∅ []) as (Hdict & Hstr & Hother & Hpost).
  split; [|split; [|split]].
  - apply (Hdict Demo.title_only "data"); [left|reflexivity].
  - apply (Hstr Demo.title_only_json Demo.title_only "data");
      [reflexivity|left|reflexivity].
  - apply Hother. reflexivity.
  - apply (Hpost _ Demo.data_1_json Demo.data_1 Demo.data_1);
      [reflexivity|reflexivity|reflexivity|].
    right. left. split; reflexivity.
Defined.

(** C4 as stated fails: an empty dict given as [payload] raises the type
    error although a payload is given, and a payload of an unsupported
    type raises no value error when [json] is given too. *)
Lemma create_etch_packet_type_error_with_payload :
  let create := create_etch_packet Demo.json_loads Demo.transport
                  Demo.payload_type Demo.mutation_type
                  Demo.get_multipart_payload in
  ¬ (∀ payload json,
       (∃ tr' msg, run (create payload json ∅) [] = (tr', Raise (TypeError msg)))
       ↔ payload = Value PNone ∧ json = None)
  ∧ ¬ (∀ payload json,
       payload ≠ Value PNone → is_etch_form payload = false →
       ∃ tr' e, run (create payload json ∅) [] = (tr', Raise e)
                ∧ is_value_error e = true).
Proof.
  intros create. split.
  - intros H.
    destruct (proj1 (H (Value (PDict ∅)) None)) as [Habs _]; [|discriminate].
    eexists _, _. reflexivity.
  - intros H.
    destruct (H (Value (PInt 5)) (Some Demo.data_1_json)) as (tr' & e & Hrun & _);
      [discriminate|reflexivity|].
    vm_compute in Hrun. discriminate.
Qed.

Lemma demo_no_type_error {A : Type} : no_type_error (λ a : A, Ok a).
Proof. intros a e. discriminate. Qed.

Lemma demo_transport_no_type_error (tr : list (request Demo.Files)) :
  no_type_error (Demo.transport tr).
Proof.
  intros req e. unfold Demo.transport.
  destruct req as [| ? ? kwargs |]; try discriminate.
  destruct (kwargs !! "include_headers") as [[| [] | | | |]|]; discriminate.
Qed.

Lemma create_etch_packet_errors_witness :
  let create := create_etch_packet Demo.json_loads Demo.transport
                  Demo.payload_type Demo.mutation_type
                  Demo.get_multipart_payload in
  raises_offline (create (Value (PDict ∅)) None ∅) [] (TypeError msg_payload_or_json)
  ∧ (truthy (Value (PDict ∅) : argument (Demo.payload_type + Demo.mutation_type))
       = false ∧ json_truthy None = false)
  ∧ raises_offline (create (Value (PStr "text")) None ∅) []
      (ValueError msg_etch_payload).
Proof.
  split; [|split].
  - apply (create_etch_packet_errors Demo.json_loads Demo.transport
             Demo.payload_type Demo.mutation_type Demo.get_multipart_payload
             (Value (PDict ∅)) None ∅ []); reflexivity.
  - eapply (proj1 (proj2 (create_etch_packet_errors Demo.json_loads Demo.transport
             Demo.payload_type Demo.mutation_type Demo.get_multipart_payload
             (Value (PDict ∅)) None ∅ []))).
    + apply demo_no_type_error.
    + apply demo_no_type_error.
    + apply demo_no_type_error.
    + apply demo_no_type_error.
    + apply demo_transport_no_type_error.
    + reflexivity.
    + reflexivity.
  - apply (create_etch_packet_errors Demo.json_loads Demo.transport
             Demo.payload_type Demo.mutation_type Demo.get_multipart_payload
             (Value (PStr "text")) None ∅ []); reflexivity.
Defined.


Lemma orgs_are_flattened_witness :
  run (get_casts Demo.transport None false ∅) [] =
    ([query_request (get_casts_query None false) ∅],
     Ok (PList [Demo.cast_1; Demo.cast_2; Demo.cast_3]))
  ∧ run (get_welds Demo.transport ∅) [] =
    ([query_request welds_query ∅], Ok (PList [Demo.weld_1])).
Proof.
  pose proof (orgs_are_flattened Demo.transport Demo.graphql_answer
                Demo.answer_data Demo.answer_user [Demo.org_1; Demo.org_2] ∅ []
                eq_refl eq_refl eq_refl) as H.
  destruct H as [Hcasts Hwelds]; [reflexivity|].
  split.
  - apply (Hcasts [[Demo.cast_1; Demo.cast_2]; [Demo.cast_3]] None false).
    + repeat constructor.
    + reflexivity.
    + left. reflexivity.
  - apply (Hwelds [[]; [Demo.weld_1]]).
    + repeat constructor.
    + reflexivity.
    + left. reflexivity.
Defined.

Lemma generate_pdf_rejects_witness :
  raises_offline
    (generate_pdf Demo.json_loads Demo.transport Demo.payload_type
       (Value (PDict ∅)) ∅) [] (ValueError msg_json_or_dict)
  ∧ raises_offline
    (generate_pdf Demo.json_loads Demo.transport Demo.payload_type
       (Value (PList [PInt 1])) ∅) [] (ValueError msg_json_or_dict).
Proof.
  split.
  - apply generate_pdf_rejects. left. reflexivity.
  - apply generate_pdf_rejects. right. reflexivity.
Defined.

Lemma json_takes_precedence_witness :
  run (create_etch_packet Demo.json_loads Demo.transport Demo.payload_type
         Demo.mutation_type Demo.get_multipart_payload
         (Value (PInt 5)) (Some Demo.data_1_json) ∅) [] =
    ([GraphqlPostMultipart Demo.data_1 ∅], Ok PNone)
  ∧ run (forge_submit Demo.json_loads Demo.transport Demo.payload_type
         Demo.mutation_type (Value (PDict Demo.title_only))
         (Some Demo.data_1_json) ∅) [] =
    ([GraphqlPost "mutation { demo }" (PDict Demo.data_1) ∅],
     Ok (PDict Demo.graphql_answer)).
Proof.
  pose proof (json_takes_precedence Demo.json_loads Demo.transport
                Demo.payload_type Demo.payload_type Demo.mutation_type
                Demo.mutation_type Demo.get_multipart_payload
                Demo.data_1_json ∅ []) as H.
  destruct H as (_ & Hetch & _ & Hforge); [discriminate|].
  split.
  - apply (Hetch (Value (PInt 5)) Demo.data_1 Demo.data_1 Demo.data_1);
      reflexivity.
  - apply (Hforge (Value (PDict Demo.title_only)) Demo.data_1 Demo.data_1
             Demo.data_1); reflexivity.
Defined.

(** ** The further properties at the concrete collaborators *)

Lemma fill_pdf_keywords_witness :
  ∃ body kwargs',
    (RestPost "fill/T.pdf" Demo.data_1
       {[ "params" := PDict {[ "versionNumber" := PInt 3 ]};
          "timeout" := PInt 9 ]} : request Demo.Files) =
    RestPost "fill/T.pdf" body kwargs'
    ∧ kwargs' !! "version_number" = None
    ∧ kwargs' !! "timeout" = Some (PInt 9)
    ∧ kwargs' !! "params" = Some (PDict {[ "versionNumber" := PInt 3 ]}).
Proof.
  destruct (fill_pdf_keywords Demo.json_loads Demo.transport Demo.payload_type
              "T" (Instance Demo.data_1)
              {[ "version_number" := PInt 3; "timeout" := PInt 9;
                 "params" := PStr "mine" ]} []
              (RestPost "fill/T.pdf" Demo.data_1
                 {[ "params" := PDict {[ "versionNumber" := PInt 3 ]};
                    "timeout" := PInt 9 ]})
              (Ok PNone))
    as (body & kwargs' & Hreq & _ & Hversion & Hframe & Hparams & _).
  { vm_compute. reflexivity. }
  exists body, kwargs'. split; [exact Hreq|]. split; [exact Hversion|].
  split.
  - rewrite (Hframe "timeout"); [reflexivity|discriminate|discriminate].
  - apply (Hparams (PInt 3)); reflexivity.
Defined.

Lemma construction_errors_witness :
  raises_offline
    (fill_pdf Demo.json_loads Demo.transport Probe.keyed_type "T"
       (Value (PDict Demo.title_only)) ∅) []
    (ValueError msg_validation_failed)
  ∧ raises_offline
    (fill_pdf Demo.json_loads Demo.transport Demo.payload_type "T"
       (Value (PDict Demo.title_only)) ∅) []
    (ValidationError "field required")
  ∧ raises_offline
    (generate_pdf Demo.json_loads Demo.transport Probe.keyed_type
       (Value (PDict Demo.title_only)) ∅) []
    (KeyError "data").
Proof.
  split; [|split].
  - apply (proj1 (construction_errors Demo.json_loads Demo.transport
             Probe.keyed_type Probe.keyed_type Demo.title_only ∅ [])
             "T" "data").
    reflexivity.
  - apply (proj1 (proj2 (construction_errors Demo.json_loads Demo.transport
             Demo.payload_type Demo.payload_type Demo.title_only ∅ []))
             "T" (ValidationError "field required")); [reflexivity|].
    intros k. discriminate.
  - apply (proj2 (proj2 (construction_errors Demo.json_loads Demo.transport
             Probe.keyed_type Probe.keyed_type Demo.title_only ∅ []))
             (KeyError "data")); [discriminate|reflexivity].
Defined.

Lemma forge_submit_errors_witness :
  raises_offline
    (forge_submit Demo.json_loads Demo.transport Demo.payload_type
       Demo.mutation_type (Value (PDict ∅)) None ∅) []
    (TypeError msg_json_or_payload)
  ∧ raises_offline
    (forge_submit Demo.json_loads Demo.transport Demo.payload_type
       Demo.mutation_type (Object true) (Some EmptyString) ∅) []
    (ValueError msg_forge_payload).
Proof.
  split.
  - apply (forge_submit_errors Demo.json_loads Demo.transport
             Demo.payload_type Demo.mutation_type (Value (PDict ∅)) None ∅ []);
      reflexivity.
  - apply (forge_submit_errors Demo.json_loads Demo.transport
             Demo.payload_type Demo.mutation_type (Object true)
             (Some EmptyString) ∅ []); reflexivity.
Defined.

Lemma create_etch_packet_by_kind_witness :
  let create := create_etch_packet Demo.json_loads Demo.transport
                  Demo.payload_type Demo.mutation_type
                  Demo.get_multipart_payload in
  let sent : list (request Demo.Files) * result pyval :=
    ([GraphqlPostMultipart Demo.data_1 ∅], Ok PNone) in
  run (create (Value (PDict Demo.data_1)) None ∅) [] = sent
  ∧ run (create (Instance (inl Demo.data_1)) None ∅) [] = sent
  ∧ run (create (Instance (inr Demo.data_1)) None ∅) [] = sent.
Proof.
  pose proof (create_etch_packet_by_kind Demo.json_loads Demo.transport
                Demo.payload_type Demo.mutation_type Demo.get_multipart_payload
                Demo.data_1 Demo.data_1 None ∅ []) as H.
  destruct H as (Hdict & Htyped & Hmutation); [reflexivity..|].
  split; [|split].
  - apply (Hdict Demo.data_1); [discriminate|reflexivity].
  - apply (Htyped Demo.data_1). reflexivity.
  - exact Hmutation.
Defined.

Lemma forge_submit_by_kind_witness :
  let submit := forge_submit Demo.json_loads Demo.transport
                  Demo.payload_type Demo.mutation_type in
  let sent : list (request Demo.Files) * result pyval :=
    ([GraphqlPost "mutation { demo }" (PDict Demo.data_1) ∅],
     Ok (PDict Demo.graphql_answer)) in
  run (submit (Value (PDict Demo.data_1)) None ∅) [] = sent
  ∧ run (submit (Instance Demo.data_1) None ∅) [] = sent.
Proof.
  pose proof (forge_submit_by_kind Demo.json_loads Demo.transport
                Demo.payload_type Demo.mutation_type
                Demo.data_1 Demo.data_1 None ∅ []) as H.
  destruct H as (Hdict & Htyped); [reflexivity..|].
  split.
  - apply (Hdict Demo.data_1); [discriminate|reflexivity].
  - apply (Htyped Demo.data_1). reflexivity.
Defined.

Lemma get_weld_request_witness :
  raises_offline
    (get_weld Demo.transport "w1" {[ "variables" := PDict ∅ ]}) []
    (TypeError msg_multiple_values)
  ∧ run (get_weld Probe.errors_transport "w1" ∅) [] =
    ([GraphqlPost weld_query (PDict {[ "eid" := PStr "w1" ]}) ∅],
     Raise (KeyError "data")).
Proof.
  split.
  - apply (get_weld_request Demo.transport "w1" {[ "variables" := PDict ∅ ]} []).
    by exists (PDict ∅).
  - rewrite (proj1 (proj2 (get_weld_request Probe.errors_transport "w1" ∅ [])));
      reflexivity.
Defined.

Lemma get_current_user_request_witness :
  run (get_current_user Demo.transport ∅) [] =
    ([GraphqlPost current_user_query PNone ∅], Ok (PDict Demo.answer_user))
  ∧ run (get_current_user Demo.transport {[ "include_headers" := PBool true ]}) [] =
    ([GraphqlPost current_user_query PNone {[ "include_headers" := PBool true ]}],
     Ok (PDict {[ "response" := PDict Demo.answer_user;
                  "headers" := Demo.headers ]})).
Proof.
  split.
  - destruct (get_current_user_request Demo.transport ∅ []) as (_ & Hbare & _);
      [reflexivity|].
    apply (Hbare Demo.graphql_answer Demo.answer_data);
      [reflexivity|left; reflexivity|reflexivity|reflexivity].
  - destruct (get_current_user_request Demo.transport
                {[ "include_headers" := PBool true ]} []) as (_ & _ & Henv);
      [reflexivity|].
    apply (Henv Demo.graphql_envelope Demo.graphql_answer Demo.answer_data);
      reflexivity.
Defined.


Lemma organizations_all_or_nothing_witness :
  get_data_orgs "casts" (PDict Probe.partial_answer) = Raise (KeyError "casts").
Proof.
  apply (organizations_all_or_nothing "casts" Probe.partial_answer
           Probe.partial_data Probe.partial_user [Demo.org_1]
           [[Demo.cast_1; Demo.cast_2]] Probe.org_without_casts []);
    [reflexivity|reflexivity|reflexivity|repeat constructor|reflexivity].
Defined.

Lemma get_return_not_a_dict_witness :
  _get_return PNone get_data_cast = Raise (TypeError "argument is not iterable")
  ∧ _get_return (PList [PStr "response"]) (λ v, Ok v) =
    Ok (PList [PStr "response"])
  ∧ _get_return (PList [PStr "headers"; PStr "response"]) (λ v, Ok v) =
    Raise (TypeError "indices must be integers").
Proof.
  split; [|split].
  - apply (get_return_not_a_dict get_data_cast). by left.
  - rewrite (proj1 (proj2 (get_return_not_a_dict (λ v, Ok v))));
      [reflexivity|right; reflexivity].
  - apply (get_return_not_a_dict (λ v, Ok v)); reflexivity.
Defined.

Lemma cast_args_extended_in_place_witness :
  get_cast_args "B" None (Some (cast_args_after "A" None [("k", "v")])) =
    [("k", "v"); ("eid", quoted "A"); ("eid", quoted "B")]
  ∧ is_substring ("eid:" +:+ quoted "A" +:+ ",eid:" +:+ quoted "B")
      (get_cast_query "B" None None
         (Some (cast_args_after "A" None [("k", "v")]))) = true.
Proof.
  pose proof (cast_args_extended_in_place "A" "B" None [("k", "v")]) as H.
  destruct H as (_ & Hargs & Hsub & _); [discriminate|].
  split; [exact Hargs|exact Hsub].
Defined.

Lemma generate_etch_signing_url_request_witness :
  run (generate_etch_signing_url Demo.transport Demo.payload_type
         Demo.mutation_type Probe.signing_url_init (λ p, p) "s1" "u1" ∅) [] =
    ([GraphqlPost "mutation { demo }"
        (PDict {[ "signerEid" := PStr "s1"; "clientUserId" := PStr "u1" ]}) ∅],
     Ok (PDict Demo.graphql_answer))
  ∧ raises_offline
      (generate_etch_signing_url Demo.transport Demo.payload_type
         Demo.mutation_type Probe.signing_url_init (λ p, p) "s1" "u1"
         {[ "query" := PStr "q" ]}) []
      (TypeError msg_multiple_values).
Proof.
  split.
  - destruct (generate_etch_signing_url_request Demo.transport Demo.payload_type
             Demo.mutation_type Probe.signing_url_init (λ p, p) "s1" "u1"
             ({[ "signerEid" := PStr "s1"; "clientUserId" := PStr "u1" ]} : pydict)
             ({[ "signerEid" := PStr "s1"; "clientUserId" := PStr "u1" ]} : pydict)
             ∅ []) as [Hsent _]; [reflexivity..|].
    apply Hsent. reflexivity.
  - destruct (generate_etch_signing_url_request Demo.transport Demo.payload_type
             Demo.mutation_type Probe.signing_url_init (λ p, p) "s1" "u1"
             ({[ "signerEid" := PStr "s1"; "clientUserId" := PStr "u1" ]} : pydict)
             ({[ "signerEid" := PStr "s1"; "clientUserId" := PStr "u1" ]} : pydict)
             {[ "query" := PStr "q" ]} []) as [_ Hrefused]; [reflexivity..|].
    apply Hrefused. reflexivity.
Defined.

Lemma mutation_keyword_collisions_witness :
  raises_offline
    (create_etch_packet Demo.json_loads Demo.transport Demo.payload_type
       Demo.mutation_type Demo.get_multipart_payload
       (Instance (inr Demo.data_1)) None {[ "files" := PNone ]}) []
    (TypeError msg_multiple_values)
  ∧ raises_offline
    (forge_submit Demo.json_loads Demo.transport Demo.payload_type
       Demo.mutation_type (Instance Demo.data_1) None
       {[ "variables" := PDict ∅ ]}) []
    (TypeError msg_multiple_values).
Proof.
  split.
  - destruct (mutation_keyword_collisions Demo.json_loads Demo.transport
             Demo.payload_type Demo.payload_type Demo.mutation_type
             Demo.mutation_type Demo.get_multipart_payload None
             {[ "files" := PNone ]} []) as (Hfiles & _); [reflexivity|].
    apply (Hfiles Demo.data_1 Demo.data_1); reflexivity.
  - destruct (mutation_keyword_collisions Demo.json_loads Demo.transport
             Demo.payload_type Demo.payload_type Demo.mutation_type
             Demo.mutation_type Demo.get_multipart_payload None
             {[ "variables" := PDict ∅ ]} []) as (_ & _ & Hvariables & _);
      [reflexivity|].
    apply (Hvariables Demo.data_1 Demo.data_1 Demo.data_1); reflexivity.
Defined.

Lemma generate_pdf_keywords_witness :
  ∃ body,
    (RestPost "generate-pdf" Demo.data_1 {[ "version_number" := PInt 3 ]}
       : request Demo.Files) =
    RestPost "generate-pdf" body {[ "version_number" := PInt 3 ]}.
Proof.
  destruct (generate_pdf_keywords Demo.json_loads Demo.transport
              Demo.payload_type (Value (PDict Demo.data_1))
              {[ "version_number" := PInt 3 ]} []
              (RestPost "generate-pdf" Demo.data_1 {[ "version_number" := PInt 3 ]})
              (Ok PNone)) as (body & Hreq & _).
  { vm_compute. reflexivity. }
  by exists body.
Defined.

Lemma empty_mapping_guard_witness :
  posts_once Demo.transport
    (fill_pdf Demo.json_loads Demo.transport Probe.open_type "T"
       (Value (PDict ∅)) ∅) [] "fill/T.pdf" ∅
  ∧ raises_offline
    (generate_pdf Demo.json_loads Demo.transport Probe.open_type
       (Value (PDict ∅)) ∅) [] (ValueError msg_json_or_dict).
Proof.
  apply (empty_mapping_guard Demo.json_loads Demo.transport Probe.open_type
           Probe.open_type "T" (∅ : pydict) ∅ []); reflexivity.
Defined.

(** ** The revised properties at the concrete collaborators *)

(** C3 as stated fails: a payload with its required field present is not
    sent when the payload type refuses the value of the field, nor when a
    keyword argument names the body of the POST; in both cases [fill_pdf]
    raises and makes no call. *)
Lemma fill_pdf_required_present_no_post :
  has_required Probe.strict_type Demo.data_1 = true
  ∧ run (fill_pdf Demo.json_loads Demo.transport Probe.strict_type "T"
           (Value (PDict Demo.data_1)) ∅) [] =
    ([], Raise (ValidationError "value is not a valid dict"))
  ∧ (∀ body, ¬ posts_once Demo.transport
       (fill_pdf Demo.json_loads Demo.transport Probe.strict_type "T"
          (Value (PDict Demo.data_1)) ∅) [] "fill/T.pdf" body)
  ∧ has_required Demo.payload_type Demo.data_1 = true
  ∧ run (fill_pdf Demo.json_loads Demo.transport Demo.payload_type "T"
           (Value (PDict Demo.data_1)) {[ "data" := PInt 7 ]}) [] =
    ([], Raise (TypeError msg_multiple_values))
  ∧ (∀ body, ¬ posts_once Demo.transport
       (fill_pdf Demo.json_loads Demo.transport Demo.payload_type "T"
          (Value (PDict Demo.data_1)) {[ "data" := PInt 7 ]}) [] "fill/T.pdf" body).
Proof.
  split; [reflexivity|]. split; [reflexivity|]. split.
  { intros body [kwargs' Hrun]. vm_compute in Hrun. discriminate. }
  split; [reflexivity|]. split; [reflexivity|].
  intros body [kwargs' Hrun]. vm_compute in Hrun. discriminate.
Qed.

Lemma version_zero_is_absent_witness :
  let fill := fill_pdf Demo.json_loads Demo.transport Demo.payload_type "T"
                (Instance Demo.data_1) in
  run (fill {[ "version_number" := PInt 0 ]}) [] =
    ([RestPost "fill/T.pdf" Demo.data_1 ∅], Ok PNone)
  ∧ run (fill {[ "version_number" := PInt VERSION_LATEST ]}) [] =
    ([RestPost "fill/T.pdf" Demo.data_1
        {[ "params" := PDict {[ "versionNumber" := PInt (-1) ]} ]}], Ok PNone).
Proof.
  pose proof (version_zero_is_absent Demo.json_loads Demo.transport
                Demo.payload_type ∅ []) as (_ & Hzero & _ & Hlatest & _).
  split.
  - apply (Hzero "T" Demo.data_1). reflexivity.
  - apply (Hlatest "T" Demo.data_1). reflexivity.
Defined.

Lemma rest_keyword_collisions_witness :
  raises_offline
    (fill_pdf Demo.json_loads Demo.transport Demo.payload_type "T"
       (Instance Demo.data_1) {[ "data" := PInt 7 ]}) []
    (TypeError msg_multiple_values)
  ∧ raises_offline
    (generate_pdf Demo.json_loads Demo.transport Demo.payload_type
       (Instance Demo.data_1) {[ "url" := PStr "elsewhere" ]}) []
    (TypeError msg_multiple_values).
Proof.
  split.
  - destruct (rest_keyword_collisions Demo.json_loads Demo.transport
                Demo.payload_type Demo.payload_type {[ "data" := PInt 7 ]} [])
      as [Hfill _].
    { right. exists (PInt 7). reflexivity. }
    apply (Hfill "T" Demo.data_1).
  - destruct (rest_keyword_collisions Demo.json_loads Demo.transport
                Demo.payload_type Demo.payload_type
                {[ "url" := PStr "elsewhere" ]} []) as [_ Hgenerate].
    { left. exists (PStr "elsewhere"). reflexivity. }
    apply (Hgenerate Demo.data_1).
Defined.
